(** * Gym management: shift booking, payment status, client association

    A shallow embedding of the handlers of [src/src/App.js] that decide the
    booking, payment and association rules, over a model of the document
    store they talk to.

    - A collection of the store is a finite map from document id to
      document data ([gmap string _]); ids are unique by construction.
    - A component's array state ([shifts], [payments], ...) is the list of
      [(id, data)] pairs a subscription delivers
      ([snapshot.docs.map(doc => ({id: doc.id, ...doc.data()}))]).
    - A handler is a function from the store (and the arrays and form
      fields it reads) to the new store and the notice it shows.
    - JavaScript numbers are the rationals they denote; the text of a
      numeric control is empty or a decimal literal. *)

From Stdlib Require Import QArith Qround Lqa.
From stdpp Require Import base option list gmap strings sorting.

Local Open Scope string_scope.

(* ===================================================================== *)
(** ** JavaScript values held in form state *)

Module Js.

(** What a numeric form field holds: a number put there by [useState]
    or copied from a document, or the text of an [<input type="number">]
    or [<select>], which is either empty or a numeric literal (given here
    by the rational it denotes). *)
Inductive Value :=
| Num (q : Q)
| Text (t : option Q).

(** [!v] is [negb (truthy v)]: the number 0 and the empty text are falsy,
    every non-empty text (also the text of 0) is truthy. *)
Definition truthy (v : Value) : bool :=
  match v with
  | Num q => negb (Qeq_bool q 0)
  | Text None => false
  | Text (Some _) => true
  end.

(** [Number(v)], also the coercion [v <= 0] applies: empty text is 0. *)
Definition Number (v : Value) : Q :=
  match v with
  | Num q => q
  | Text None => 0
  | Text (Some q) => q
  end.

(** [parseFloat(v)]; [None] is NaN. *)
Definition parseFloat (v : Value) : option Q :=
  match v with
  | Num q => Some q
  | Text t => t
  end.

(** [!s] on a string. *)
Definition blank (s : string) : bool := bool_decide (s = "").

(** [new Date()]: the calendar fields the handlers read. *)
Record Date := mkDate {
  getFullYear : Z;
  getMonth : Z;       (* 0-indexed *)
  getDate : Z         (* day of the month *)
}.

End Js.

(* ===================================================================== *)
(** ** Documents *)

(** [artifacts/{appId}/users/{userId}/shifts/{id}].  The constant [gymId]
    and [userId] fields every document carries are left out. *)
Record Shift := mkShift {
  date : string;
  time : string;
  capacity : Q;
  modalityId : string;
  bookedClients : list string;
  createdAt : Z
}.

(** [.../clients/{id}] *)
Record Client := mkClient {
  name : string;
  phone : string;
  email : string;
  associatedUserUid : option string;     (* [null] when not linked *)
  currentModalityId : option string
}.

(** [.../payments/{id}]; the [date] field is the time of recording. *)
Record Payment := mkPayment {
  clientId : string;
  amount : Q;
  recordedAt : Z;                         (* field [date] *)
  paymentMonth : Q;
  paymentYear : Q
}.

(** [.../modalities/{id}] *)
Record Modality := mkModality {
  modalityName : string;
  price : Q;
  description : string
}.

(** [artifacts/{appId}/users/{uid}] *)
Record User := mkUser {
  userEmail : string;
  role : string
}.

(** One administrator's collections. *)
Record Store := mkStore {
  shiftsColl : gmap string Shift;
  clientsColl : gmap string Client;
  paymentsColl : gmap string Payment;
  modalitiesColl : gmap string Modality
}.

Definition emptyStore : Store := mkStore ∅ ∅ ∅ ∅.

Definition withShifts (db : Store) (m : gmap string Shift) : Store :=
  mkStore m (clientsColl db) (paymentsColl db) (modalitiesColl db).
Definition withClients (db : Store) (m : gmap string Client) : Store :=
  mkStore (shiftsColl db) m (paymentsColl db) (modalitiesColl db).
Definition withPayments (db : Store) (m : gmap string Payment) : Store :=
  mkStore (shiftsColl db) (clientsColl db) m (modalitiesColl db).
Definition withModalities (db : Store) (m : gmap string Modality) : Store :=
  mkStore (shiftsColl db) (clientsColl db) (paymentsColl db) m.

(* ===================================================================== *)
(** ** The document store interface *)

Section Collection.
Context {A : Type}.

(** The array of [{id, ...data}] objects a subscription or [getDocs]
    delivers. *)
Definition docs (c : gmap string A) : list (string * A) := map_to_list c.

(** [addDoc]: the server picks the id [newId]. *)
Definition addDoc (newId : string) (d : A) (c : gmap string A) : gmap string A :=
  <[newId := d]> c.

(** [updateDoc(ref, fields)]: merges [fields] into the document; rejects
    ([None]) when the document does not exist. *)
Definition updateDoc (id : string) (fields : A -> A) (c : gmap string A)
  : option (gmap string A) :=
  match c !! id with
  | Some d => Some (<[id := fields d]> c)
  | None => None
  end.

(** [deleteDoc]. *)
Definition deleteDoc (id : string) (c : gmap string A) : gmap string A :=
  delete id c.

(** [getDocs(query(coll, where(...)))]. *)
Definition queryWhere (P : A -> bool) (c : gmap string A) : list (string * A) :=
  List.filter (fun d => P d.2) (docs c).

(** [arr.find(x => x.id === id)]. *)
Definition findById (id : string) (arr : list (string * A)) : option (string * A) :=
  List.find (fun x => bool_decide (x.1 = id)) arr.

End Collection.

(** The partial updates the handlers send. *)
Definition setBookedClients (l : list string) (s : Shift) : Shift :=
  mkShift (date s) (time s) (capacity s) (modalityId s) l (createdAt s).

Definition setSlot (d t : string) (c : Q) (m : string) (s : Shift) : Shift :=
  mkShift d t c m (bookedClients s) (createdAt s).

(* ===================================================================== *)
(** ** Notices *)

(** One constructor per [showMessage] call of the handlers below. *)
Inductive Notice :=
| ShiftFieldsMissing       (* "Por favor, completa todos los campos para el turno, ..." *)
| ShiftAdded               (* "Turno agregado exitosamente." *)
| ShiftUpdateFieldsMissing (* "Por favor, completa todos los campos para actualizar el turno, ..." *)
| ShiftUpdated             (* "Turno actualizado exitosamente." *)
| ShiftUpdateFailed        (* "Error al actualizar turno." *)
| ShiftDeleted             (* "Turno eliminado exitosamente." *)
| SelectClientFirst        (* "Por favor, selecciona un cliente para reservar." *)
| ClientAlreadyBooked      (* "Este cliente ya esta reservado para este turno." *)
| ShiftFull                (* "El turno esta lleno. No se pueden anadir mas clientes." *)
| ClientBooked             (* "Cliente reservado exitosamente." *)
| BookClientFailed         (* "Error al reservar cliente." *)
| ClientRemovedFromShift   (* "Cliente eliminado del turno exitosamente." *)
| RemoveClientFailed       (* "Error al eliminar cliente del turno." *)
| SelfAlreadyBooked        (* "Ya estas reservado para este turno." *)
| SelfShiftFull            (* "Este turno esta lleno. No puedes reservar." *)
| SelfBooked               (* "Turno reservado exitosamente." *)
| SelfBookFailed           (* "Error al reservar turno." *)
| SelfUnbooked             (* "Reserva cancelada exitosamente." *)
| SelfUnbookFailed         (* "Error al cancelar reserva." *)
| PaymentInvalid           (* "Por favor, selecciona un cliente y un monto valido para el pago." *)
| PaymentPeriodMissing     (* "Por favor, selecciona el mes y ano de la mensualidad." *)
| PaymentRecorded          (* "Pago registrado exitosamente." *)
| ClientDeleted            (* "Cliente y sus datos asociados eliminados exitosamente." *)
| ModalityInUse            (* "No se puede eliminar la modalidad porque hay turnos asociados. ..." *)
| ModalityDeleted          (* "Modalidad eliminada exitosamente." *)
| ProfileNotAssociated.    (* "Tu perfil de cliente no ha sido asociado por un administrador. ..." *)

(** The rejection kinds of the design, and the notice each one is shown
    as.  A notice of type "success" has no kind. *)
Inductive ErrorKind :=
| ValidationError
| AlreadyBooked
| CapacityExceeded
| ReferentialConflict
| StoreUnavailable
| NotAssociated.

Definition kind (n : Notice) : option ErrorKind :=
  match n with
  | ShiftFieldsMissing | ShiftUpdateFieldsMissing | SelectClientFirst
  | PaymentInvalid | PaymentPeriodMissing => Some ValidationError
  | ClientAlreadyBooked | SelfAlreadyBooked => Some AlreadyBooked
  | ShiftFull | SelfShiftFull => Some CapacityExceeded
  | ModalityInUse => Some ReferentialConflict
  | ShiftUpdateFailed | BookClientFailed | RemoveClientFailed
  | SelfBookFailed | SelfUnbookFailed => Some StoreUnavailable
  | ProfileNotAssociated => Some NotAssociated
  | ShiftAdded | ShiftUpdated | ShiftDeleted | ClientBooked
  | ClientRemovedFromShift | SelfBooked | SelfUnbooked | PaymentRecorded
  | ClientDeleted | ModalityDeleted => None
  end.

(** [arr.length] as a JavaScript number. *)
Definition jsLength {A} (l : list A) : Q := inject_Z (Z.of_nat (length l)).

(** [arr.includes(x)] on an array of ids. *)
Definition includes (l : list string) (x : string) : bool := bool_decide (x ∈ l).

(** [arr.filter(id => id !== x)]. *)
Definition without (x : string) (l : list string) : list string :=
  filter (fun id => id ≠ x) l.


(* ===================================================================== *)
(** ** ShiftsManagement (administrator) *)

Module ShiftsManagement.

(** [handleAddShift]; [newId] and [now] are the id and the
    [serverTimestamp()] the store assigns. *)
Definition handleAddShift (newId : string) (now : Z)
    (newShiftDate newShiftTime : string) (newShiftCapacity : Js.Value)
    (newShiftModality : string) (db : Store) : Store * option Notice :=
  if Js.blank newShiftDate
     || Js.blank newShiftTime
     || Qle_bool (Js.Number newShiftCapacity) 0
     || Js.blank newShiftModality
  then (db, Some ShiftFieldsMissing)
  else
    (withShifts db
       (addDoc newId
          (mkShift newShiftDate newShiftTime (Js.Number newShiftCapacity)
                   newShiftModality [] now)
          (shiftsColl db)),
     Some ShiftAdded).

(** [handleUpdateShift]; [currentShift] is the array element picked by
    [handleEditShift], [None] for [null]. *)
Definition handleUpdateShift (currentShift : option (string * Shift))
    (newShiftDate newShiftTime : string) (newShiftCapacity : Js.Value)
    (newShiftModality : string) (db : Store) : Store * option Notice :=
  match currentShift with
  | None => (db, Some ShiftUpdateFieldsMissing)
  | Some cur =>
    if Js.blank newShiftDate
       || Js.blank newShiftTime
       || Qle_bool (Js.Number newShiftCapacity) 0
       || Js.blank newShiftModality
    then (db, Some ShiftUpdateFieldsMissing)
    else
      match updateDoc cur.1
              (setSlot newShiftDate newShiftTime (Js.Number newShiftCapacity)
                       newShiftModality)
              (shiftsColl db) with
      | Some m => (withShifts db m, Some ShiftUpdated)
      | None => (db, Some ShiftUpdateFailed)
      end
  end.

(** [confirmDeleteShift]. *)
Definition confirmDeleteShift (shiftToDelete : string) (db : Store)
  : Store * option Notice :=
  (withShifts db (deleteDoc shiftToDelete (shiftsColl db)), Some ShiftDeleted).

(** [handleBookClient]; [shifts] is the component's array of shifts.
    [shift.bookedClients || []] is [bookedClients]: every shift document
    is created with the field present. *)
Definition handleBookClient (shifts : list (string * Shift))
    (selectedClientForBooking : string) (shiftId : string) (db : Store)
  : Store * option Notice :=
  if Js.blank selectedClientForBooking then (db, Some SelectClientFirst)
  else
    match findById shiftId shifts with
    | None => (db, None)
    | Some shift =>
      let currentBookedClients := bookedClients shift.2 in
      if includes currentBookedClients selectedClientForBooking
      then (db, Some ClientAlreadyBooked)
      else if Qle_bool (capacity shift.2) (jsLength currentBookedClients)
      then (db, Some ShiftFull)
      else
        match updateDoc shiftId
                (setBookedClients
                   (currentBookedClients ++ [selectedClientForBooking]))
                (shiftsColl db) with
        | Some m => (withShifts db m, Some ClientBooked)
        | None => (db, Some BookClientFailed)
        end
    end.

(** [handleRemoveClientFromShift]. *)
Definition handleRemoveClientFromShift (shifts : list (string * Shift))
    (shiftId clientIdToRemove : string) (db : Store) : Store * option Notice :=
  match findById shiftId shifts with
  | None => (db, None)
  | Some shift =>
    let updatedBookedClients :=
      without clientIdToRemove (bookedClients shift.2) in
    match updateDoc shiftId (setBookedClients updatedBookedClients)
            (shiftsColl db) with
    | Some m => (withShifts db m, Some ClientRemovedFromShift)
    | None => (db, Some RemoveClientFailed)
    end
  end.

End ShiftsManagement.

(* ===================================================================== *)
(** ** Payment status (Dashboard and ClientsManagement) *)

(** The [status] field of the object [getPaymentStatus] returns; the
    [color] and [bgColor] fields are functions of it. *)
Inductive PaymentStatus :=
| AlDia        (* "Al dia": paid *)
| Vencido      (* "Vencido": overdue *)
| Pendiente.   (* "Pendiente": pending *)

(** The predicate handed to [payments.some]. *)
Definition paidFor (client : string) (currentMonth currentYear : Z)
    (payment : string * Payment) : bool :=
  bool_decide (clientId payment.2 = client)
  && Qeq_bool (paymentMonth payment.2) (inject_Z currentMonth)
  && Qeq_bool (paymentYear payment.2) (inject_Z currentYear).

Module Dashboard.

(** [getPaymentStatus]; [today] is [new Date()]. *)
Definition getPaymentStatus (payments : list (string * Payment))
    (today : Js.Date) (client : string) : PaymentStatus :=
  let currentMonth := (Js.getMonth today + 1)%Z in
  let currentYear := Js.getFullYear today in
  let dayOfMonth := Js.getDate today in
  let hasPaidThisMonth :=
    existsb (paidFor client currentMonth currentYear) payments in
  if hasPaidThisMonth then AlDia
  else if (10 <? dayOfMonth)%Z then Vencido
  else Pendiente.

End Dashboard.

(* ===================================================================== *)
(** ** ClientsManagement *)

Module ClientsManagement.

(** [getPaymentStatus], a second copy of the Dashboard's. *)
Definition getPaymentStatus (payments : list (string * Payment))
    (today : Js.Date) (client : string) : PaymentStatus :=
  let currentMonth := (Js.getMonth today + 1)%Z in
  let currentYear := Js.getFullYear today in
  let dayOfMonth := Js.getDate today in
  let hasPaidThisMonth :=
    existsb (paidFor client currentMonth currentYear) payments in
  if hasPaidThisMonth then AlDia
  else if (10 <? dayOfMonth)%Z then Vencido
  else Pendiente.

(** The body of [paymentsSnapshot.forEach]: one [deleteDoc] per payment. *)
Definition deletePaymentDoc (db : Store) (paymentDoc : string * Payment) : Store :=
  withPayments db (deleteDoc paymentDoc.1 (paymentsColl db)).

(** The body of [shiftsSnapshot.forEach]: the update carries the
    [bookedClients] read by the query, filtered; a rejected update
    changes nothing. *)
Definition unbookFromShiftDoc (clientToDelete : string) (db : Store)
    (shiftDoc : string * Shift) : Store :=
  let updatedBookedClients := without clientToDelete (bookedClients shiftDoc.2) in
  match updateDoc shiftDoc.1 (setBookedClients updatedBookedClients)
          (shiftsColl db) with
  | Some m => withShifts db m
  | None => db
  end.

(** [confirmDeleteClient]: the store requests in the order the handler
    issues them, each one applied before the next. *)
Definition confirmDeleteClient (clientToDelete : string) (db : Store)
  : Store * option Notice :=
  let db1 := withClients db (deleteDoc clientToDelete (clientsColl db)) in
  let paymentsSnapshot :=
    queryWhere (fun p => bool_decide (clientId p = clientToDelete))
               (paymentsColl db1) in
  let db2 := foldl deletePaymentDoc db1 paymentsSnapshot in
  let shiftsSnapshot :=
    queryWhere (fun s => includes (bookedClients s) clientToDelete)
               (shiftsColl db2) in
  let db3 := foldl (unbookFromShiftDoc clientToDelete) db2 shiftsSnapshot in
  (db3, Some ClientDeleted).

End ClientsManagement.

(* ===================================================================== *)
(** ** Payments *)

Module Payments.

(** [handleAddPayment].  The four tests of the first [if] show the same
    notice; [isNaN(parseFloat(..))] is the [None] branch. *)
Definition handleAddPayment (newId : string) (now : Z)
    (newPaymentClientId : string)
    (newPaymentAmount newPaymentMonth newPaymentYear : Js.Value)
    (db : Store) : Store * option Notice :=
  if Js.blank newPaymentClientId || negb (Js.truthy newPaymentAmount)
  then (db, Some PaymentInvalid)
  else
    match Js.parseFloat newPaymentAmount with
    | None => (db, Some PaymentInvalid)
    | Some amt =>
      if Qle_bool amt 0 then (db, Some PaymentInvalid)
      else if negb (Js.truthy newPaymentMonth) || negb (Js.truthy newPaymentYear)
      then (db, Some PaymentPeriodMissing)
      else
        (withPayments db
           (addDoc newId
              (mkPayment newPaymentClientId amt now
                         (Js.Number newPaymentMonth) (Js.Number newPaymentYear))
              (paymentsColl db)),
         Some PaymentRecorded)
    end.

End Payments.

(* ===================================================================== *)
(** ** Modalities *)

Module Modalities.

(** [confirmDeleteModality]. *)
Definition confirmDeleteModality (modalityToDelete : string) (db : Store)
  : Store * option Notice :=
  let shiftsSnapshot :=
    queryWhere (fun s => bool_decide (modalityId s = modalityToDelete))
               (shiftsColl db) in
  match shiftsSnapshot with
  | _ :: _ => (db, Some ModalityInUse)
  | [] =>
    (withModalities db (deleteDoc modalityToDelete (modalitiesColl db)),
     Some ModalityDeleted)
  end.

End Modalities.


(* ===================================================================== *)
(** ** ClientDashboard (self-service) *)

Module ClientDashboard.

(** The result of the scan in [fetchClientProfile]: the profile and the
    administrator found, and the administrators whose clients were
    queried, in order. *)
Record Scan := mkScan {
  foundClientProfile : option (string * Client);
  foundAdminId : option string;
  queried : list string
}.

(** The [for ... of allUsersSnapshot.docs] loop with its [break];
    [tenant uid] is the store under [artifacts/{appId}/users/{uid}]. *)
Fixpoint scanUsers (tenant : string -> Store) (userId : string)
    (userDocs : list (string * User)) : Scan :=
  match userDocs with
  | [] => mkScan None None []
  | userDoc :: rest =>
    if bool_decide (role userDoc.2 = "admin") then
      let adminUid := userDoc.1 in
      let clientSnapshot :=
        queryWhere (fun c => bool_decide (associatedUserUid c = Some userId))
                   (clientsColl (tenant adminUid)) in
      match clientSnapshot with
      | first :: _ => mkScan (Some first) (Some adminUid) [adminUid]
      | [] =>
        let r := scanUsers tenant userId rest in
        mkScan (foundClientProfile r) (foundAdminId r) (adminUid :: queried r)
      end
    else scanUsers tenant userId rest
  end.

(** [fetchClientProfile]: the component state it sets
    ([clientProfile], [adminUserId]), the notice, and the queries made. *)
Definition fetchClientProfile (users : gmap string User)
    (tenant : string -> Store) (userId : string)
  : option (string * Client) * option string * option Notice * list string :=
  let r := scanUsers tenant userId (docs users) in
  match foundClientProfile r with
  | Some profile => (Some profile, foundAdminId r, None, queried r)
  | None => (None, None, Some ProfileNotAssociated, queried r)
  end.

(** [handleBookShift]; [db] is the store of the administrator
    [adminUserId], [userId] the signed-in account. *)
Definition handleBookShift (shifts : list (string * Shift))
    (userId : string) (shiftId : string) (db : Store) : Store * option Notice :=
  match findById shiftId shifts with
  | None => (db, None)
  | Some shift =>
    let currentBookedClients := bookedClients shift.2 in
    if includes currentBookedClients userId
    then (db, Some SelfAlreadyBooked)
    else if Qle_bool (capacity shift.2) (jsLength currentBookedClients)
    then (db, Some SelfShiftFull)
    else
      match updateDoc shiftId
              (setBookedClients (currentBookedClients ++ [userId]))
              (shiftsColl db) with
      | Some m => (withShifts db m, Some SelfBooked)
      | None => (db, Some SelfBookFailed)
      end
  end.

(** [handleUnbookShift]. *)
Definition handleUnbookShift (shifts : list (string * Shift))
    (userId : string) (shiftId : string) (db : Store) : Store * option Notice :=
  match findById shiftId shifts with
  | None => (db, None)
  | Some shift =>
    let updatedBookedClients := without userId (bookedClients shift.2) in
    match updateDoc shiftId (setBookedClients updatedBookedClients)
            (shiftsColl db) with
    | Some m => (withShifts db m, Some SelfUnbooked)
    | None => (db, Some SelfUnbookFailed)
    end
  end.

End ClientDashboard.

(* ===================================================================== *)
(** ** Sequences of shift operations *)

(** The operations that write to the shifts collection, with the form
    state and the array each handler reads. *)
Inductive Op :=
| AddShift (newId : string) (now : Z) (newShiftDate newShiftTime : string)
           (newShiftCapacity : Js.Value) (newShiftModality : string)
| UpdateShift (currentShift : option (string * Shift))
              (newShiftDate newShiftTime : string)
              (newShiftCapacity : Js.Value) (newShiftModality : string)
| DeleteShift (shiftToDelete : string)
| BookClient (shifts : list (string * Shift))
             (selectedClientForBooking shiftId : string)
| RemoveClientFromShift (shifts : list (string * Shift))
                        (shiftId clientIdToRemove : string)
| BookShift (shifts : list (string * Shift)) (userId shiftId : string)
| UnbookShift (shifts : list (string * Shift)) (userId shiftId : string)
| DeleteClient (clientToDelete : string).

(** A booking or unbooking handler reads [shifts], the array its
    component was last delivered: a snapshot of the collection (for the
    client its future part), sorted by date, and possibly older than the
    store the handler then writes to.  The other handlers read form state
    or query the store. *)
Definition exec (op : Op) (db : Store) : Store :=
  match op with
  | AddShift newId now d t c m =>
      (ShiftsManagement.handleAddShift newId now d t c m db).1
  | UpdateShift cur d t c m =>
      (ShiftsManagement.handleUpdateShift cur d t c m db).1
  | DeleteShift id =>
      (ShiftsManagement.confirmDeleteShift id db).1
  | BookClient shifts sel id =>
      (ShiftsManagement.handleBookClient shifts sel id db).1
  | RemoveClientFromShift shifts id c =>
      (ShiftsManagement.handleRemoveClientFromShift shifts id c db).1
  | BookShift shifts uid id =>
      (ClientDashboard.handleBookShift shifts uid id db).1
  | UnbookShift shifts uid id =>
      (ClientDashboard.handleUnbookShift shifts uid id db).1
  | DeleteClient c =>
      (ClientsManagement.confirmDeleteClient c db).1
  end.

(** The array an operation reads and the shift id it looks up in it. *)
Definition reads (op : Op) : option (list (string * Shift) * string) :=
  match op with
  | BookClient shifts _ id | RemoveClientFromShift shifts id _
  | BookShift shifts _ id | UnbookShift shifts _ id => Some (shifts, id)
  | _ => None
  end.

Definition run (ops : list Op) (db : Store) : Store :=
  foldl (fun s op => exec op s) db ops.


Definition wholeNumber (q : Q) : bool := Qeq_bool q (inject_Z (Qfloor q)).

(** An operation keeps capacities whole and never sets one below the
    bookings the shift already has. *)
Definition keepsCapacity (op : Op) (db : Store) : bool :=
  match op with
  | AddShift _ _ _ _ c _ => wholeNumber (Js.Number c)
  | UpdateShift (Some cur) _ _ c _ =>
      wholeNumber (Js.Number c)
      && match shiftsColl db !! cur.1 with
         | Some s => Qle_bool (jsLength (bookedClients s)) (Js.Number c)
         | None => true
         end
  | _ => true
  end.

Fixpoint keepCapacity (ops : list Op) (db : Store) : bool :=
  match ops with
  | [] => true
  | op :: rest => keepsCapacity op db && keepCapacity rest (exec op db)
  end.

(** [shifts] was delivered by the store in one of the states [hist]:
    each element is a shift document of that state (any part of the
    snapshot, in any order). *)
Definition deliveredFrom (hist : list Store) (shifts : list (string * Shift)) : Prop :=
  exists db, db ∈ hist /\ forall x, x ∈ shifts -> shiftsColl db !! x.1 = Some x.2.

(** Along the run every array read was delivered in the state the
    operation starts from or in an earlier one ([hist], latest first). *)
Fixpoint arraysDelivered (hist : list Store) (ops : list Op) (db : Store) : Prop :=
  match ops with
  | [] => True
  | op :: rest =>
      match reads op with
      | Some (shifts, _) => deliveredFrom (db :: hist) shifts
      | None => True
      end
      /\ arraysDelivered (db :: hist) rest (exec op db)
  end.



(** A handler's result is a rejection of kind [k] that wrote nothing. *)
Definition failsWith (k : ErrorKind) (db : Store) (r : Store * option Notice) : Prop :=
  r.1 = db /\ r.2 ≫= kind = Some k.


(** A payment for [client] tagged with the month and year of [today]. *)
Definition paysPeriod (client : string) (today : Js.Date) (p : Payment) : Prop :=
  clientId p = client
  /\ (paymentMonth p == inject_Z (Js.getMonth today + 1))%Q
  /\ (paymentYear p == inject_Z (Js.getFullYear today))%Q.

(** The record-payment rule as stated: rejected exactly when the amount is
    not positive or the month is outside 1..12, a payment stamped [now]
    otherwise. *)
Definition recordPayment_as_stated (newId : string) (now : Z)
    (client : string) (amt month year : Js.Value) (db : Store) : Prop :=
  let r := Payments.handleAddPayment newId now client amt month year db in
  let invalid :=
    (exists a, Js.parseFloat amt = Some a /\ (a <= 0)%Q)
    \/ (Js.Number month < 1)%Q \/ (12 < Js.Number month)%Q in
  (invalid -> failsWith ValidationError db r)
  /\ (~ invalid ->
      exists p, paymentsColl r.1 !! newId = Some p /\ recordedAt p = now).

(** The ids of the administrators in an array of user documents, in order. *)
Definition adminsOf (userDocs : list (string * User)) : list string :=
  (List.filter (fun x => bool_decide (role x.2 = "admin")) userDocs).*1.

(** Client [x] of a directory is linked to the account [userId]. *)
Definition linkedTo (userId : string) (directory : gmap string Client)
    (x : string * Client) : Prop :=
  directory !! x.1 = Some x.2 /\ associatedUserUid x.2 = Some userId.





(* ===================================================================== *)
(** ** More of the program: strings, dates and sorting *)

Module JsString.

(** The ASCII white space [String.prototype.trim] removes (tab, line
    feed, vertical tab, form feed, carriage return, space).  The
    non-ASCII white space of ECMAScript is not treated. *)
Definition isWhiteSpace (a : Ascii.ascii) : bool :=
  let n := Ascii.nat_of_ascii a in
  Nat.eqb n 32 || (Nat.leb 9 n && Nat.leb n 13).

Fixpoint trimStart (s : string) : string :=
  match s with
  | String a r => if isWhiteSpace a then trimStart r else s
  | EmptyString => EmptyString
  end.

Definition trim (s : string) : string :=
  String.rev (trimStart (String.rev (trimStart s))).

End JsString.

Section Dates.
(** [new Date(text).getTime()]: [None] for an invalid date.  [now] is
    [new Date()]. *)
Variable parseDate : string -> option Z.
Variable now : Z.

(** [new Date(`${shift.date}T${shift.time}`)]. *)
Definition shiftDateTime (shift : string * Shift) : option Z :=
  parseDate (date shift.2 +:+ "T" +:+ time shift.2).

(** [shiftDateTime > new Date()]; false for an invalid date. *)
Definition isFuture (shift : string * Shift) : bool :=
  match shiftDateTime shift with
  | Some t => (now <? t)%Z
  | None => false
  end.

(** The comparator [(a, b) => dateA - dateB]; a NaN result counts as 0. *)
Definition byDateTime (a b : string * Shift) : Z :=
  match shiftDateTime a, shiftDateTime b with
  | Some x, Some y => (x - y)%Z
  | _, _ => 0%Z
  end.

(** The time of a shift, 0 when its date does not parse. *)
Definition timeOrZero (shift : string * Shift) : Z :=
  default 0%Z (shiftDateTime shift).

End Dates.

Section Sort.
Context {A : Type}.
Variable comparefn : A -> A -> Z.

Fixpoint insertSorted (x : A) (l : list A) : list A :=
  match l with
  | [] => [x]
  | y :: l' =>
    if (comparefn x y <=? 0)%Z then x :: y :: l'
    else y :: insertSorted x l'
  end.

(** [arr.sort(comparefn)]: the stable sort, which is what every stable
    algorithm returns when [comparefn] orders the elements
    consistently, as it does on the dated shifts sorted here. *)
Definition jsSort (l : list A) : list A := foldr insertSorted [] l.

End Sort.

(* ===================================================================== *)
(** ** Dashboard: the summary figures *)

Module DashboardSummary.

(** [payment.amount || 0]. *)
Definition orZero (q : Q) : Q := if Qeq_bool q 0 then 0%Q else q.

(** [payments.reduce((sum, payment) => sum + (payment.amount || 0), 0)].
    The amounts are added as exact rationals where the code adds
    doubles, which round: the figure is used below for its sign only,
    which rounding keeps. *)
Definition totalIncome (payments : list (string * Payment)) : Q :=
  foldl (fun sum payment => (sum + orZero (amount payment.2))%Q) 0%Q payments.

(** [overdueClientsCount]. *)
Definition overdueClientsCount (clients : list (string * Client))
    (payments : list (string * Payment)) (today : Js.Date) : nat :=
  length
    (List.filter
       (fun client =>
          match Dashboard.getPaymentStatus payments today client.1 with
          | Vencido => true
          | _ => false
          end)
       clients).

(** [upcomingShifts]: future shifts, by date and time, the first five. *)
Definition upcomingShifts (parseDate : string -> option Z) (now : Z)
    (shifts : list (string * Shift)) : list (string * Shift) :=
  take 5 (jsSort (byDateTime parseDate)
                 (List.filter (isFuture parseDate now) shifts)).

End DashboardSummary.

(* ===================================================================== *)
(** ** Notices of the remaining handlers *)

Inductive FormNotice :=
| ClientNameRequired     (* "El nombre del cliente es obligatorio." *)
| ClientAdded            (* "Cliente agregado exitosamente." *)
| ClientUpdated          (* "Cliente actualizado exitosamente." *)
| ClientUpdateFailed     (* "Error al actualizar cliente." *)
| PaymentDeleted         (* "Pago eliminado exitosamente." *)
| ModalityInvalid        (* "El nombre y un precio valido de la modalidad son obligatorios." *)
| ModalityAdded          (* "Modalidad agregada exitosamente." *)
| ModalityUpdated        (* "Modalidad actualizada exitosamente." *)
| ModalityUpdateFailed   (* "Error al actualizar modalidad." *)
| ModalityChoiceMissing  (* "Por favor, selecciona una modalidad valida." *)
| ModalityChanged        (* "Modalidad actualizada exitosamente." (client) *)
| ModalityChangeFailed   (* "Error al cambiar modalidad." *)
| BrandImageSaved.       (* "Imagen de marca guardada exitosamente." *)

(** The partial updates of a client document. *)
Definition setContact (n p e : string) (a : option string) (c : Client) : Client :=
  mkClient n p e a (currentModalityId c).

Definition setCurrentModality (m : string) (c : Client) : Client :=
  mkClient (name c) (phone c) (email c) (associatedUserUid c) (Some m).

Definition setModality (n : string) (p : Q) (d : string) (m : Modality) : Modality :=
  mkModality n p d.

(** [uid || null] on a string. *)
Definition orNull (s : string) : option string :=
  if Js.blank s then None else Some s.

(* ===================================================================== *)
(** ** Clients: adding and editing *)

Module ClientsForm.

(** [handleAddClient].  The new document has no [currentModalityId];
    its [createdAt] is not modelled. *)
Definition handleAddClient (newId : string)
    (newClientName newClientPhone newClientEmail newClientAssociatedUserUid : string)
    (db : Store) : Store * FormNotice :=
  if Js.blank newClientName then (db, ClientNameRequired)
  else
    (withClients db
       (addDoc newId
          (mkClient newClientName newClientPhone newClientEmail
                    (orNull newClientAssociatedUserUid) None)
          (clientsColl db)),
     ClientAdded).

(** [handleUpdateClient]; [currentClient] is the row picked by
    [handleEditClient]. *)
Definition handleUpdateClient (currentClient : option (string * Client))
    (newClientName newClientPhone newClientEmail newClientAssociatedUserUid : string)
    (db : Store) : Store * FormNotice :=
  match currentClient with
  | None => (db, ClientNameRequired)
  | Some cur =>
    if Js.blank newClientName then (db, ClientNameRequired)
    else
      match updateDoc cur.1
              (setContact newClientName newClientPhone newClientEmail
                          (orNull newClientAssociatedUserUid))
              (clientsColl db) with
      | Some m => (withClients db m, ClientUpdated)
      | None => (db, ClientUpdateFailed)
      end
  end.

End ClientsForm.

(* ===================================================================== *)
(** ** Payments: deleting *)

Module PaymentsList.

(** [confirmDeletePayment]. *)
Definition confirmDeletePayment (paymentToDelete : string) (db : Store)
  : Store * FormNotice :=
  (withPayments db (deleteDoc paymentToDelete (paymentsColl db)), PaymentDeleted).

(** [getClientName]. *)
Definition getClientName (clients : list (string * Client)) (client : string)
  : string :=
  match findById client clients with
  | Some c => name c.2
  | None => "Cliente desconocido"
  end.

End PaymentsList.

(* ===================================================================== *)
(** ** Modalities: adding and editing *)

Module ModalitiesForm.

(** The test shared by [handleAddModality] and [handleUpdateModality]:
    [!name.trim() || !price || isNaN(parseFloat(price)) ||
    parseFloat(price) <= 0]; the price that passes it. *)
Definition validPrice (newModalityName : string) (newModalityPrice : Js.Value)
  : option Q :=
  if Js.blank (JsString.trim newModalityName) || negb (Js.truthy newModalityPrice)
  then None
  else
    match Js.parseFloat newModalityPrice with
    | None => None
    | Some p => if Qle_bool p 0 then None else Some p
    end.

(** [handleAddModality]. *)
Definition handleAddModality (newId : string)
    (newModalityName : string) (newModalityPrice : Js.Value)
    (newModalityDescription : string) (db : Store) : Store * FormNotice :=
  match validPrice newModalityName newModalityPrice with
  | None => (db, ModalityInvalid)
  | Some p =>
    (withModalities db
       (addDoc newId (mkModality newModalityName p newModalityDescription)
               (modalitiesColl db)),
     ModalityAdded)
  end.

(** [handleUpdateModality]. *)
Definition handleUpdateModality (currentModality : option (string * Modality))
    (newModalityName : string) (newModalityPrice : Js.Value)
    (newModalityDescription : string) (db : Store) : Store * FormNotice :=
  match currentModality with
  | None => (db, ModalityInvalid)
  | Some cur =>
    match validPrice newModalityName newModalityPrice with
    | None => (db, ModalityInvalid)
    | Some p =>
      match updateDoc cur.1
              (setModality newModalityName p newModalityDescription)
              (modalitiesColl db) with
      | Some m => (withModalities db m, ModalityUpdated)
      | None => (db, ModalityUpdateFailed)
      end
    end
  end.

End ModalitiesForm.

(* ===================================================================== *)
(** ** Shifts and ClientDashboard: what the tables show *)

Module ShiftsView.

(** [getModalityName], the same in Shifts and in ClientDashboard. *)
Definition getModalityName (modalities : list (string * Modality))
    (modality : string) : string :=
  match findById modality modalities with
  | Some m => modalityName m.2
  | None => "Desconocida"
  end.

(** The name shown for a booked id in the shifts table. *)
Definition bookedClientName (clients : list (string * Client)) (client : string)
  : string :=
  match findById client clients with
  | Some c => name c.2
  | None => "Cliente desconocido"
  end.

End ShiftsView.

Module SelfService.

(** The array the shifts subscription of ClientDashboard keeps. *)
Definition futureShifts (parseDate : string -> option Z) (now : Z)
    (shiftsData : list (string * Shift)) : list (string * Shift) :=
  jsSort (byDateTime parseDate) (List.filter (isFuture parseDate now) shiftsData).

(** "Mis Turnos Reservados". *)
Definition bookedShifts (shifts : list (string * Shift)) (userId : string)
  : list (string * Shift) :=
  List.filter (fun shift => includes (bookedClients shift.2) userId) shifts.

(** [a < b] on numbers. *)
Definition lessThan (a b : Q) : bool :=
  match (a ?= b)%Q with Lt => true | _ => false end.

(** "Turnos Disponibles". *)
Definition availableShifts (shifts : list (string * Shift)) (userId : string)
  : list (string * Shift) :=
  List.filter
    (fun shift =>
       negb (includes (bookedClients shift.2) userId)
       && lessThan (jsLength (bookedClients shift.2)) (capacity shift.2))
    shifts.

(** [handleChangeModality]: the store, the profile kept in state, the
    notice. *)
Definition handleChangeModality (clientProfile : option (string * Client))
    (adminUserId : option string) (selectedNewModality : string) (db : Store)
  : Store * option (string * Client) * FormNotice :=
  match clientProfile, adminUserId with
  | Some profile, Some _ =>
    if Js.blank selectedNewModality
    then (db, clientProfile, ModalityChoiceMissing)
    else
      match updateDoc profile.1 (setCurrentModality selectedNewModality)
              (clientsColl db) with
      | Some m =>
        (withClients db m,
         Some (profile.1, setCurrentModality selectedNewModality profile.2),
         ModalityChanged)
      | None => (db, clientProfile, ModalityChangeFailed)
      end
  | _, _ => (db, clientProfile, ModalityChoiceMissing)
  end.

End SelfService.

(* ===================================================================== *)
(** ** Accounts: roles and brand settings *)

(** The users collection and the [settings/brand] document of each user
    (its [imageUrl]).  Of a user document the [email] and the [role] are
    kept; [uid] is the document id, [appId] a constant and [createdAt] is
    never read. *)
Record Registry := mkRegistry {
  usersColl : gmap string User;
  brandColl : gmap string string
}.

Definition emptyRegistry : Registry := mkRegistry ∅ ∅.

(** [existingUsers.empty ? "admin" : "client"]. *)
Definition roleToAssign (existingUsers : list (string * User)) : string :=
  match existingUsers with
  | [] => "admin"
  | _ :: _ => "client"
  end.

(** The two [setDoc] calls that create an account: the user document and,
    for an administrator, the brand settings with an empty image. *)
Definition createAccount (uid userEmail' : string) (reg : Registry) : Registry * string :=
  let role' := roleToAssign (docs (usersColl reg)) in
  let users' := <[uid := mkUser userEmail' role']> (usersColl reg) in
  if bool_decide (role' = "admin")
  then (mkRegistry users' (<[uid := ""]> (brandColl reg)), role')
  else (mkRegistry users' (brandColl reg), role').

Module App.

(** The session state of [App]. *)
Record Session := mkSession {
  userId : option string;
  userRole : option string;
  isLoggedIn : bool;
  brandImageUrl : string
}.

Definition signedOut : Session := mkSession None None false "".

(** The [onAuthStateChanged] callback; [user] is [(uid, email)] or
    [None] for [null]. *)
Definition onAuthStateChanged (user : option (string * string))
    (reg : Registry) (st : Session) : Registry * Session :=
  match user with
  | Some u =>
    match usersColl reg !! u.1 with
    | Some userDoc =>
      let url :=
        if bool_decide (role userDoc = "admin") then
          match brandColl reg !! u.1 with
          | Some imageUrl => imageUrl          (* [imageUrl || ""] *)
          | None => brandImageUrl st
          end
        else brandImageUrl st in
      (reg, mkSession (Some u.1) (Some (role userDoc)) true url)
    | None =>
      let r := createAccount u.1 u.2 reg in
      (r.1, mkSession (Some u.1) (Some r.2) true (brandImageUrl st))
    end
  | None => (reg, signedOut)
  end.

(** What [main] renders. *)
Inductive Screen :=
| AuthScreenView
| AdminView (currentView : string)
| ClientDashboardView.

Definition mainScreen (st : Session) (currentView : string) : Screen :=
  if negb (isLoggedIn st) then AuthScreenView
  else if bool_decide (userRole st = Some "admin") then AdminView currentView
  else ClientDashboardView.

End App.

Module AuthScreen.

(** The outcome of [handleAuth]: the notice of a success, or the
    message chosen for an error code. *)
Inductive AuthNotice :=
| Registered            (* "Registro exitoso. Bienvenido!" *)
| SignedIn              (* "Inicio de sesion exitoso. Bienvenido de nuevo!" *)
| EmailInUse            (* "El correo electronico ya esta en uso." *)
| InvalidEmail          (* "El formato del correo electronico es invalido." *)
| WeakPassword          (* "La contrasena debe tener al menos 6 caracteres." *)
| InvalidCredentials    (* "Credenciales invalidas. Verifica tu correo y contrasena." *)
| MethodDisabled        (* "La autenticacion por correo/contrasena no esta habilitada ..." *)
| AuthError.            (* "Error de autenticacion." *)

Definition errorMessage (code : string) : AuthNotice :=
  if bool_decide (code = "auth/email-already-in-use") then EmailInUse
  else if bool_decide (code = "auth/invalid-email") then InvalidEmail
  else if bool_decide (code = "auth/weak-password") then WeakPassword
  else if bool_decide (code = "auth/user-not-found")
          || bool_decide (code = "auth/wrong-password") then InvalidCredentials
  else if bool_decide (code = "auth/operation-not-allowed") then MethodDisabled
  else AuthError.

(** [handleAuth]; [credential] is what the identity service answers to
    [createUserWithEmailAndPassword] or [signInWithEmailAndPassword]: an
    error code, or the user's [(uid, email)]. *)
Definition handleAuth (isRegistering : bool)
    (credential : string + string * string) (reg : Registry)
  : Registry * AuthNotice :=
  match credential with
  | inl code => (reg, errorMessage code)
  | inr user =>
    if isRegistering then ((createAccount user.1 user.2 reg).1, Registered)
    else (reg, SignedIn)
  end.

End AuthScreen.

Module BrandSettings.

(** [handleSaveBrandImage]: the settings document and the image kept in
    the session. *)
Definition handleSaveBrandImage (userId newImageUrl : string)
    (reg : Registry) (st : App.Session) : Registry * App.Session * FormNotice :=
  (mkRegistry (usersColl reg) (<[userId := newImageUrl]> (brandColl reg)),
   App.mkSession (App.userId st) (App.userRole st) (App.isLoggedIn st) newImageUrl,
   BrandImageSaved).

End BrandSettings.

(** The events that write to the users collection. *)
Inductive AuthEvent :=
| AuthStateChanged (user : option (string * string))
| HandleAuth (isRegistering : bool) (credential : string + string * string).

Definition authStep (ev : AuthEvent) (s : Registry * App.Session)
  : Registry * App.Session :=
  match ev with
  | AuthStateChanged user => App.onAuthStateChanged user s.1 s.2
  | HandleAuth isRegistering credential =>
      ((AuthScreen.handleAuth isRegistering credential s.1).1, s.2)
  end.

Definition authRun (evs : list AuthEvent) (s : Registry * App.Session)
  : Registry * App.Session :=
  foldl (fun s ev => authStep ev s) s evs.

(** The administrators of a registry. *)
Definition isAdmin (reg : Registry) (uid : string) : Prop :=
  exists u, usersColl reg !! uid = Some u /\ role u = "admin".

(** Every stored payment has an amount above 0. *)
Definition positiveAmounts (db : Store) : Prop :=
  forall pid p, paymentsColl db !! pid = Some p -> (0 < amount p)%Q.

(** Every shift's modality is a document of the modalities collection. *)
Definition modalitiesResolve (db : Store) : Prop :=
  forall sid s, shiftsColl db !! sid = Some s ->
    is_Some (modalitiesColl db !! modalityId s).

(** Every stored modality has a price above 0 and a name that is not
    blank. *)
Definition validModalities (db : Store) : Prop :=
  forall id m, modalitiesColl db !! id = Some m ->
    (0 < price m)%Q /\ JsString.trim (modalityName m) ≠ "".

(** An event of the [onAuthStateChanged] callback. *)
Definition isAuthStateChanged (ev : AuthEvent) : Prop :=
  match ev with
  | AuthStateChanged _ => True
  | HandleAuth _ _ => False
  end.


(* ===================================================================== *)
(** * Properties *)

(** ** Numbers, arrays and the store *)

Lemma Qle_bool_false (a b : Q) : Qle_bool a b = false <-> (b < a)%Q.
Proof.
  split.
  - intros H. apply Qnot_le_lt. intros Hle.
    apply Qle_bool_iff in Hle. congruence.
  - intros H. destruct (Qle_bool a b) eqn:E; [|done].
    apply Qle_bool_iff in E. lra.
Qed.

Lemma blank_false (s : string) : Js.blank s = false <-> s ≠ "".
Proof. unfold Js.blank. by rewrite bool_decide_eq_false. Qed.

Lemma blank_true (s : string) : Js.blank s = true <-> s = "".
Proof. unfold Js.blank. by rewrite bool_decide_eq_true. Qed.

Lemma includes_true (l : list string) (x : string) : includes l x = true <-> x ∈ l.
Proof. unfold includes. by rewrite bool_decide_eq_true. Qed.

Lemma includes_false (l : list string) (x : string) : includes l x = false <-> x ∉ l.
Proof. unfold includes. by rewrite bool_decide_eq_false. Qed.

Lemma without_absent (x : string) (l : list string) : x ∉ without x l.
Proof. unfold without. rewrite list_elem_of_filter. tauto. Qed.

Lemma without_id (x : string) (l : list string) : x ∉ l -> without x l = l.
Proof.
  unfold without. induction l as [|y l IH]; [done|].
  intros Hx. apply not_elem_of_cons in Hx as [Hne Hl].
  rewrite filter_cons_True; [|done]. by rewrite IH.
Qed.

Lemma without_idempotent (x : string) (l : list string) :
  without x (without x l) = without x l.
Proof. apply without_id, without_absent. Qed.



Lemma setBookedClients_same (s : Shift) : setBookedClients (bookedClients s) s = s.
Proof. by destruct s. Qed.

Lemma withShifts_same (db : Store) : withShifts db (shiftsColl db) = db.
Proof. by destruct db. Qed.

Section Arrays.
Context {A : Type}.
Implicit Types (arr : list (string * A)) (c : gmap string A).

Lemma findById_Some id arr x :
  findById id arr = Some x -> x ∈ arr /\ x.1 = id.
Proof.
  unfold findById. intros H. apply find_some in H as [Hin Hid].
  split; [by apply list_elem_of_In|]. by apply bool_decide_eq_true in Hid.
Qed.

Lemma findById_None id arr x :
  findById id arr = None -> x ∈ arr -> x.1 ≠ id.
Proof.
  unfold findById. intros H Hin.
  apply list_elem_of_In in Hin.
  pose proof (find_none _ _ H _ Hin) as Hb. simpl in Hb.
  by apply bool_decide_eq_false in Hb.
Qed.

Lemma elem_of_docs c x : x ∈ docs c <-> c !! x.1 = Some x.2.
Proof. unfold docs. destruct x as [i d]. apply elem_of_map_to_list. Qed.

(** Looking an id up in the latest snapshot is looking it up in the
    collection. *)
Lemma findById_docs id c :
  findById id (docs c) = (fun d => (id, d)) <$> c !! id.
Proof.
  destruct (c !! id) as [d|] eqn:E; simpl.
  - destruct (findById id (docs c)) as [x|] eqn:F.
    + apply findById_Some in F as [Hin Hid].
      apply elem_of_docs in Hin. destruct x as [i y]. simpl in *. subst i.
      congruence.
    + exfalso. eapply (findById_None id _ (id, d)); [done| |done].
      by apply elem_of_docs.
  - destruct (findById id (docs c)) as [x|] eqn:F; [|done].
    apply findById_Some in F as [Hin Hid].
    apply elem_of_docs in Hin. congruence.
Qed.

(** The same for a filtered view of the snapshot. *)
Lemma findById_filter_docs id c (P : string * A -> bool) x :
  findById id (List.filter P (docs c)) = Some x -> x.1 = id /\ c !! id = Some x.2.
Proof.
  intros F. apply findById_Some in F as [Hin Hid]. split; [done|].
  apply list_elem_of_In, filter_In in Hin as [Hin _].
  apply list_elem_of_In, elem_of_docs in Hin. by subst id.
Qed.

Lemma elem_of_queryWhere (P : A -> bool) c x :
  x ∈ queryWhere P c <-> c !! x.1 = Some x.2 /\ P x.2 = true.
Proof.
  unfold queryWhere. rewrite list_elem_of_In, filter_In, <- list_elem_of_In.
  by rewrite elem_of_docs.
Qed.

Lemma updateDoc_Some id (f : A -> A) c d :
  c !! id = Some d -> updateDoc id f c = Some (<[id := f d]> c).
Proof. unfold updateDoc. by intros ->. Qed.

End Arrays.

(* ===================================================================== *)
(** ** Booking *)

Section Booking.
Variables (shifts : list (string * Shift)) (client shiftId : string).
Variables (shift : string * Shift) (db : Store).
Hypothesis found : findById shiftId shifts = Some shift.

Lemma handleBookClient_already :
  client ≠ "" -> client ∈ bookedClients shift.2 ->
  ShiftsManagement.handleBookClient shifts client shiftId db
  = (db, Some ClientAlreadyBooked).
Proof.
  intros Hsel Hin. unfold ShiftsManagement.handleBookClient.
  apply blank_false in Hsel. rewrite Hsel, found. simpl.
  apply includes_true in Hin. by rewrite Hin.
Qed.

Lemma handleBookClient_full :
  client ≠ "" -> client ∉ bookedClients shift.2 -> (capacity shift.2 <= jsLength (bookedClients shift.2))%Q ->
  ShiftsManagement.handleBookClient shifts client shiftId db
  = (db, Some ShiftFull).
Proof.
  intros Hsel Hin Hcap. unfold ShiftsManagement.handleBookClient.
  apply blank_false in Hsel. rewrite Hsel, found. simpl.
  apply includes_false in Hin. rewrite Hin.
  apply Qle_bool_iff in Hcap. by rewrite Hcap.
Qed.

Lemma handleBookClient_appends stored :
  client ≠ "" -> client ∉ bookedClients shift.2 -> (jsLength (bookedClients shift.2) < capacity shift.2)%Q ->
  shiftsColl db !! shiftId = Some stored ->
  ShiftsManagement.handleBookClient shifts client shiftId db
  = (withShifts db
       (<[shiftId := setBookedClients (bookedClients shift.2 ++ [client]) stored]> (shiftsColl db)),
     Some ClientBooked).
Proof.
  intros Hsel Hin Hcap Hst. unfold ShiftsManagement.handleBookClient.
  apply blank_false in Hsel. rewrite Hsel, found. simpl.
  apply includes_false in Hin. rewrite Hin.
  apply Qle_bool_false in Hcap. rewrite Hcap.
  by rewrite (updateDoc_Some _ _ _ _ Hst).
Qed.

Lemma handleBookShift_already :
  client ∈ bookedClients shift.2 ->
  ClientDashboard.handleBookShift shifts client shiftId db
  = (db, Some SelfAlreadyBooked).
Proof.
  intros Hin. unfold ClientDashboard.handleBookShift. rewrite found. simpl.
  apply includes_true in Hin. by rewrite Hin.
Qed.

Lemma handleBookShift_full :
  client ∉ bookedClients shift.2 -> (capacity shift.2 <= jsLength (bookedClients shift.2))%Q ->
  ClientDashboard.handleBookShift shifts client shiftId db
  = (db, Some SelfShiftFull).
Proof.
  intros Hin Hcap. unfold ClientDashboard.handleBookShift. rewrite found. simpl.
  apply includes_false in Hin. rewrite Hin.
  apply Qle_bool_iff in Hcap. by rewrite Hcap.
Qed.

Lemma handleBookShift_appends stored :
  client ∉ bookedClients shift.2 -> (jsLength (bookedClients shift.2) < capacity shift.2)%Q ->
  shiftsColl db !! shiftId = Some stored ->
  ClientDashboard.handleBookShift shifts client shiftId db
  = (withShifts db
       (<[shiftId := setBookedClients (bookedClients shift.2 ++ [client]) stored]> (shiftsColl db)),
     Some SelfBooked).
Proof.
  intros Hin Hcap Hst. unfold ClientDashboard.handleBookShift.
  rewrite found. simpl.
  apply includes_false in Hin. rewrite Hin.
  apply Qle_bool_false in Hcap. rewrite Hcap.
  by rewrite (updateDoc_Some _ _ _ _ Hst).
Qed.

End Booking.


(** C1.  For a shift found in the handler's array and a non-empty client
    id, both booking handlers (the administrator's and the client's own)
    apply the rule in its order: they fail with AlreadyBooked when the id
    is in bookedClients; else fail with CapacityExceeded when the number
    of booked clients is at least the capacity; both failures leave the
    store as it was; otherwise they write bookedClients with the id
    appended to the shift's document. *)
Theorem bookClient_outcome (shifts : list (string * Shift))
    (client shiftId : string) (shift : string * Shift) (db : Store) :
  client ≠ "" ->
  findById shiftId shifts = Some shift ->
  let booked := bookedClients shift.2 in
  let admin := ShiftsManagement.handleBookClient shifts client shiftId db in
  let self := ClientDashboard.handleBookShift shifts client shiftId db in
  (client ∈ booked ->
     failsWith AlreadyBooked db admin /\ failsWith AlreadyBooked db self)
  /\ (client ∉ booked -> (capacity shift.2 <= jsLength booked)%Q ->
     failsWith CapacityExceeded db admin /\ failsWith CapacityExceeded db self)
  /\ (client ∉ booked -> (jsLength booked < capacity shift.2)%Q ->
     forall stored, shiftsColl db !! shiftId = Some stored ->
     let appended :=
       withShifts db
         (<[shiftId := setBookedClients (booked ++ [client]) stored]> (shiftsColl db)) in
     admin = (appended, Some ClientBooked) /\ self = (appended, Some SelfBooked)).
Proof.
  intros Hsel Hfound booked admin self. subst admin self. repeat split.
  - by rewrite (handleBookClient_already _ _ _ _ _ Hfound).
  - by rewrite (handleBookClient_already _ _ _ _ _ Hfound).
  - by rewrite (handleBookShift_already _ _ _ _ _ Hfound).
  - by rewrite (handleBookShift_already _ _ _ _ _ Hfound).
  - by rewrite (handleBookClient_full _ _ _ _ _ Hfound).
  - by rewrite (handleBookClient_full _ _ _ _ _ Hfound).
  - by rewrite (handleBookShift_full _ _ _ _ _ Hfound).
  - by rewrite (handleBookShift_full _ _ _ _ _ Hfound).
  - by apply handleBookClient_appends.
  - by apply handleBookShift_appends.
Qed.

Lemma bookClient_outcome_witness :
  let s := mkShift "2025-03-01" "10:00" 2 "m1" ["c1"] 0 in
  let db := mkStore {[ "s1" := s ]} ∅ ∅ ∅ in
  ShiftsManagement.handleBookClient [("s1", s)] "c2" "s1" db
  = (mkStore {[ "s1" := mkShift "2025-03-01" "10:00" 2 "m1" ["c1"; "c2"] 0 ]} ∅ ∅ ∅,
     Some ClientBooked).
Proof.
  intros s db.
  destruct (bookClient_outcome [("s1", s)] "c2" "s1" ("s1", s) db)
    as (_ & _ & Happ); [done | reflexivity |].
  destruct (Happ ltac:(by apply (bool_decide_unpack _)) ltac:(reflexivity)
              s ltac:(reflexivity)) as [Hadmin _].
  rewrite Hadmin. reflexivity.
Defined.

(* ===================================================================== *)
(** ** Unbooking *)

(** C4.  For a shift found in the handler's array and present in the
    store, both unbooking handlers write bookedClients without the client
    id and show no error; every other id stays; and when the id was not
    booked (the array being current) the store is left exactly as it
    was. *)
Theorem unbookClient_removes (shifts : list (string * Shift))
    (client shiftId : string) (shift : string * Shift) (db : Store)
    (stored : Shift) :
  findById shiftId shifts = Some shift ->
  shiftsColl db !! shiftId = Some stored ->
  let booked := bookedClients shift.2 in
  let admin := ShiftsManagement.handleRemoveClientFromShift shifts shiftId client db in
  let self := ClientDashboard.handleUnbookShift shifts client shiftId db in
  let removed :=
    withShifts db
      (<[shiftId := setBookedClients (without client booked) stored]> (shiftsColl db)) in
  admin = (removed, Some ClientRemovedFromShift)
  /\ self = (removed, Some SelfUnbooked)
  /\ admin.2 ≫= kind = None
  /\ self.2 ≫= kind = None
  /\ (client ∉ without client booked)
  /\ (forall other, other ≠ client -> (other ∈ without client booked <-> other ∈ booked))
  /\ (client ∉ booked -> bookedClients stored = booked -> removed = db).
Proof.
  intros Hfound Hst booked admin self removed.
  assert (Ha : admin = (removed, Some ClientRemovedFromShift)).
  { subst admin. unfold ShiftsManagement.handleRemoveClientFromShift.
    rewrite Hfound. simpl. by rewrite (updateDoc_Some _ _ _ _ Hst). }
  assert (Hs : self = (removed, Some SelfUnbooked)).
  { subst self. unfold ClientDashboard.handleUnbookShift.
    rewrite Hfound. simpl. by rewrite (updateDoc_Some _ _ _ _ Hst). }
  split; [done|]. split; [done|].
  rewrite Ha, Hs. split; [done|]. split; [done|].
  split; [apply without_absent|]. split.
  - intros other Hne. unfold without. rewrite list_elem_of_filter. tauto.
  - intros Habsent Hcur. subst removed.
    rewrite (without_id _ _ Habsent), <- Hcur, setBookedClients_same.
    rewrite insert_id; [|done]. apply withShifts_same.
Qed.

Lemma unbookClient_removes_witness :
  let s := mkShift "2025-03-01" "10:00" 2 "m1" ["c1"; "c2"] 0 in
  let db := mkStore {[ "s1" := s ]} ∅ ∅ ∅ in
  ShiftsManagement.handleRemoveClientFromShift [("s1", s)] "s1" "c1" db
  = (mkStore {[ "s1" := mkShift "2025-03-01" "10:00" 2 "m1" ["c2"] 0 ]} ∅ ∅ ∅,
     Some ClientRemovedFromShift)
  /\ (ShiftsManagement.handleRemoveClientFromShift [("s1", s)] "s1" "c9" db).1 = db.
Proof.
  intros s db. split.
  - destruct (unbookClient_removes [("s1", s)] "c1" "s1" ("s1", s) db s)
      as (Hadmin & _); [reflexivity | reflexivity |].
    rewrite Hadmin. reflexivity.
  - destruct (unbookClient_removes [("s1", s)] "c9" "s1" ("s1", s) db s)
      as (Hadmin & _ & _ & _ & _ & _ & Hnoop); [reflexivity | reflexivity |].
    rewrite Hadmin. simpl.
    apply Hnoop; [by apply (bool_decide_unpack _) | reflexivity].
Defined.

(** Unbooking twice is unbooking once. *)
Lemma unbookClient_idempotent (client : string) (booked : list string) :
  without client (without client booked) = without client booked.
Proof. apply without_idempotent. Qed.

(* ===================================================================== *)
(** ** Creating a shift *)

Lemma handleAddShift_rejects newId now d t c m db :
  d = "" \/ t = "" \/ m = "" \/ (Js.Number c <= 0)%Q ->
  ShiftsManagement.handleAddShift newId now d t c m db = (db, Some ShiftFieldsMissing).
Proof.
  unfold ShiftsManagement.handleAddShift.
  intros [H | [H | [H | H]]].
  - apply blank_true in H. by rewrite H.
  - apply blank_true in H. rewrite H. by rewrite orb_true_r.
  - apply blank_true in H. rewrite H. by rewrite !orb_true_r.
  - apply Qle_bool_iff in H. rewrite H. by rewrite orb_true_r.
Qed.

Lemma handleAddShift_creates newId now d t c m db :
  d ≠ "" -> t ≠ "" -> m ≠ "" -> (0 < Js.Number c)%Q ->
  ShiftsManagement.handleAddShift newId now d t c m db
  = (withShifts db (<[newId := mkShift d t (Js.Number c) m [] now]> (shiftsColl db)),
     Some ShiftAdded).
Proof.
  unfold ShiftsManagement.handleAddShift. intros Hd Ht Hm Hc.
  apply blank_false in Hd, Ht, Hm. apply Qle_bool_false in Hc.
  by rewrite Hd, Ht, Hm, Hc.
Qed.

(** C9 (the code at the failing input).  With date, time and modality
    filled in and the capacity field holding the text 0.5, which is below
    1, [handleAddShift] shows no validation error: it creates a shift of
    capacity 1/2 with no booked clients. *)
Theorem createShift_accepts_capacity_below_one :
  (Js.Number (Js.Text (Some (1 # 2)%Q)) < 1)%Q
  /\ ShiftsManagement.handleAddShift "s1" 0 "2025-03-01" "10:00"
       (Js.Text (Some (1 # 2)%Q)) "m1" emptyStore
     = (mkStore {[ "s1" := mkShift "2025-03-01" "10:00" (1 # 2) "m1" [] 0 ]} ∅ ∅ ∅,
        Some ShiftAdded).
Proof. split; reflexivity. Qed.


(* ===================================================================== *)
(** ** Payment status *)

Lemma paidFor_true client today x :
  paidFor client (Js.getMonth today + 1) (Js.getFullYear today) x = true
  <-> paysPeriod client today x.2.
Proof.
  unfold paidFor, paysPeriod.
  rewrite !andb_true_iff, bool_decide_eq_true, !Qeq_bool_iff. tauto.
Qed.

Lemma hasPaid_true payments client today :
  existsb (paidFor client (Js.getMonth today + 1) (Js.getFullYear today)) payments = true
  <-> exists x, x ∈ payments /\ paysPeriod client today x.2.
Proof.
  rewrite existsb_exists. split; intros (x & Hin & Hx); exists x.
  - split; [by apply list_elem_of_In | by apply paidFor_true].
  - split; [by apply list_elem_of_In | by apply paidFor_true].
Qed.

Lemma ClientsManagement_status_same payments today client :
  ClientsManagement.getPaymentStatus payments today client
  = Dashboard.getPaymentStatus payments today client.
Proof. reflexivity. Qed.

Lemma status_paid payments today client :
  Dashboard.getPaymentStatus payments today client = AlDia
  <-> exists x, x ∈ payments /\ paysPeriod client today x.2.
Proof.
  rewrite <- hasPaid_true. unfold Dashboard.getPaymentStatus. cbv zeta.
  destruct (existsb _ payments); [done|].
  destruct (10 <? Js.getDate today)%Z; split; discriminate.
Qed.

Lemma status_unpaid payments today client :
  ~ (exists x, x ∈ payments /\ paysPeriod client today x.2) ->
  Dashboard.getPaymentStatus payments today client
  = if (10 <? Js.getDate today)%Z then Vencido else Pendiente.
Proof.
  rewrite <- hasPaid_true. unfold Dashboard.getPaymentStatus. cbv zeta.
  by destruct (existsb _ payments).
Qed.

(** C3.  In both copies of [getPaymentStatus] the status is paid
    ("Al dia") iff some payment in the array has the client's id, the
    month of the date (getMonth() + 1) and its year; when there is none it
    is overdue ("Vencido") iff the day of the month is above 10 and
    pending ("Pendiente") iff it is not. *)
Theorem paymentStatus_rule (payments : list (string * Payment))
    (today : Js.Date) (client : string) :
  let paid := exists x, x ∈ payments /\ paysPeriod client today x.2 in
  forall status,
    status = Dashboard.getPaymentStatus payments today client
    \/ status = ClientsManagement.getPaymentStatus payments today client ->
    (status = AlDia <-> paid)
    /\ (~ paid ->
        (status = Vencido <-> (10 < Js.getDate today)%Z)
        /\ (status = Pendiente <-> (Js.getDate today <= 10)%Z)).
Proof.
  intros paid status Hst.
  assert (status = Dashboard.getPaymentStatus payments today client) as ->
    by (destruct Hst; done).
  split; [apply status_paid|].
  intros Hno. rewrite (status_unpaid _ _ _ Hno).
  destruct (Z.ltb_spec 10 (Js.getDate today)); split; split;
    first [done | lia].
Qed.

Lemma paymentStatus_rule_witness :
  let march11 := Js.mkDate 2025 2 11 in
  let march9 := Js.mkDate 2025 2 9 in
  let paidMarch := [("p1", mkPayment "c1" 100 0 3 2025)] in
  Dashboard.getPaymentStatus [] march11 "c1" = Vencido
  /\ Dashboard.getPaymentStatus [] march9 "c1" = Pendiente
  /\ ClientsManagement.getPaymentStatus paidMarch march11 "c1" = AlDia.
Proof.
  intros march11 march9 paidMarch.
  assert (Hnone : forall d, ~ exists x : string * Payment, x ∈ [] /\ paysPeriod "c1" d x.2).
  { intros d (x & Hin & _). by apply elem_of_nil in Hin. }
  split; [|split].
  - destruct (paymentStatus_rule [] march11 "c1" _ (or_introl eq_refl))
      as [_ Hun].
    destruct (Hun (Hnone _)) as [Hov _]. apply Hov. reflexivity.
  - destruct (paymentStatus_rule [] march9 "c1" _ (or_introl eq_refl))
      as [_ Hun].
    destruct (Hun (Hnone _)) as [_ Hpe]. apply Hpe. vm_compute. discriminate.
  - destruct (paymentStatus_rule paidMarch march11 "c1" _ (or_intror eq_refl))
      as [Hpaid _].
    apply Hpaid. exists ("p1", mkPayment "c1" 100 0 3 2025). split.
    + apply list_elem_of_here.
    + repeat split; reflexivity.
Defined.

Lemma hasPaid_agree payments1 payments2 today client :
  (forall x, paysPeriod client today x.2 -> (x ∈ payments1 <-> x ∈ payments2)) ->
  existsb (paidFor client (Js.getMonth today + 1) (Js.getFullYear today)) payments1
  = existsb (paidFor client (Js.getMonth today + 1) (Js.getFullYear today)) payments2.
Proof.
  intros Hagree. apply eq_true_iff_eq. rewrite !hasPaid_true.
  split; intros (x & Hin & Hx); exists x; (split; [|done]); by apply (Hagree x Hx).
Qed.

(** Payments of other clients or other periods can be added or dropped
    without changing the status. *)
Lemma paymentStatus_ignores_others payments extra today client :
  (forall x, x ∈ extra -> ~ paysPeriod client today x.2) ->
  Dashboard.getPaymentStatus (payments ++ extra) today client
  = Dashboard.getPaymentStatus payments today client.
Proof.
  intros Hother. unfold Dashboard.getPaymentStatus. cbv zeta.
  rewrite (hasPaid_agree (payments ++ extra) payments); [done|].
  intros x Hx. rewrite elem_of_app. split; [|tauto].
  intros [H | H]; [done|]. by destruct (Hother x H).
Qed.

(** C10.  Two payment arrays that hold the same payments of the client for
    the month and year of the date give the same status, in both copies of
    [getPaymentStatus]; what they hold for other clients, months or years
    is not looked at. *)
Theorem paymentStatus_noninterference (payments1 payments2 : list (string * Payment))
    (today : Js.Date) (client : string) :
  (forall x, paysPeriod client today x.2 -> (x ∈ payments1 <-> x ∈ payments2)) ->
  Dashboard.getPaymentStatus payments1 today client
  = Dashboard.getPaymentStatus payments2 today client
  /\ ClientsManagement.getPaymentStatus payments1 today client
     = ClientsManagement.getPaymentStatus payments2 today client.
Proof.
  intros Hagree.
  unfold ClientsManagement.getPaymentStatus, Dashboard.getPaymentStatus.
  cbv zeta. by rewrite (hasPaid_agree _ _ _ _ Hagree).
Qed.

Lemma paymentStatus_noninterference_witness :
  let march11 := Js.mkDate 2025 2 11 in
  let mine := ("p1", mkPayment "c1" 100 0 3 2025) in
  Dashboard.getPaymentStatus [mine] march11 "c1"
  = Dashboard.getPaymentStatus
      [("p0", mkPayment "c2" 80 0 3 2025); mine; ("p2", mkPayment "c1" 100 0 2 2025)]
      march11 "c1".
Proof.
  intros march11 mine.
  apply (paymentStatus_noninterference [mine]
           [("p0", mkPayment "c2" 80 0 3 2025); mine; ("p2", mkPayment "c1" 100 0 2 2025)]
           march11 "c1").
  intros x (Hc & Hm & Hy). rewrite !elem_of_cons, !elem_of_nil.
  split.
  - intros [-> | []]. right. by left.
  - intros [-> | [-> | [-> | []]]].
    + exfalso. simpl in Hc. discriminate.
    + by left.
    + exfalso. vm_compute in Hm. discriminate.
Defined.


(* ===================================================================== *)
(** ** Recording a payment *)

Lemma handleAddPayment_rejects newId now client amt month year db :
  client = "" \/ Js.truthy amt = false \/ Js.parseFloat amt = None
  \/ (exists a, Js.parseFloat amt = Some a /\ (a <= 0)%Q)
  \/ Js.truthy month = false \/ Js.truthy year = false ->
  failsWith ValidationError db
    (Payments.handleAddPayment newId now client amt month year db).
Proof.
  unfold Payments.handleAddPayment, failsWith. intros H.
  destruct (Js.blank client || negb (Js.truthy amt)) eqn:E1; [done|].
  apply orb_false_iff in E1 as [Hc Ha].
  apply blank_false in Hc. apply negb_false_iff in Ha.
  destruct (Js.parseFloat amt) as [a|] eqn:E2; [|done].
  destruct (Qle_bool a 0) eqn:E3; [done|].
  destruct (negb (Js.truthy month) || negb (Js.truthy year)) eqn:E4; [done|].
  apply orb_false_iff in E4 as [Hm Hy].
  apply negb_false_iff in Hm, Hy. apply Qle_bool_false in E3.
  destruct H as [H | [H | [H | [(a' & Ha' & Hle) | [H | H]]]]];
    try congruence.
  assert (a' = a) as -> by congruence. lra.
Qed.

Lemma handleAddPayment_records newId now client amt a month year db :
  client ≠ "" -> Js.truthy amt = true -> Js.parseFloat amt = Some a ->
  (0 < a)%Q -> Js.truthy month = true -> Js.truthy year = true ->
  Payments.handleAddPayment newId now client amt month year db
  = (withPayments db
       (<[newId := mkPayment client a now (Js.Number month) (Js.Number year)]>
          (paymentsColl db)),
     Some PaymentRecorded).
Proof.
  unfold Payments.handleAddPayment. intros Hc Ha Hp Hpos Hm Hy.
  apply blank_false in Hc. apply Qle_bool_false in Hpos.
  by rewrite Hc, Ha, Hp, Hpos, Hm, Hy.
Qed.

(** C8 (amended).  [handleAddPayment] fails with ValidationError, writing
    nothing, whenever the client is not selected, the amount is empty, not
    a number or not above 0, or the month or the year is empty (or the
    number 0); otherwise it creates a payment with that client, amount,
    month and year whose recording time is the store's current time.  The
    handler does not test the range of the month. *)
Theorem recordPayment_outcome (newId : string) (now : Z) (client : string)
    (amt month year : Js.Value) (db : Store) :
  let r := Payments.handleAddPayment newId now client amt month year db in
  (client = "" \/ Js.truthy amt = false \/ Js.parseFloat amt = None
   \/ (exists a, Js.parseFloat amt = Some a /\ (a <= 0)%Q)
   \/ Js.truthy month = false \/ Js.truthy year = false ->
   failsWith ValidationError db r)
  /\ (forall a,
      client ≠ "" -> Js.truthy amt = true -> Js.parseFloat amt = Some a ->
      (0 < a)%Q -> Js.truthy month = true -> Js.truthy year = true ->
      r = (withPayments db
             (<[newId := mkPayment client a now (Js.Number month) (Js.Number year)]>
                (paymentsColl db)),
           Some PaymentRecorded)
      /\ (exists p, paymentsColl r.1 !! newId = Some p /\ recordedAt p = now)).
Proof.
  intros r. split; [apply handleAddPayment_rejects|].
  intros a Hc Ha Hp Hpos Hm Hy. subst r.
  rewrite (handleAddPayment_records _ _ _ _ a) by done.
  split; [done|]. eexists. split; [apply lookup_insert_eq|done].
Qed.

Lemma recordPayment_outcome_witness :
  Payments.handleAddPayment "p1" 1741000000 "c1" (Js.Text (Some 50%Q))
    (Js.Text (Some 3%Q)) (Js.Num 2025) emptyStore
  = (mkStore ∅ ∅ {[ "p1" := mkPayment "c1" 50 1741000000 3 2025 ]} ∅,
     Some PaymentRecorded)
  /\ failsWith ValidationError emptyStore
       (Payments.handleAddPayment "p1" 1741000000 "c1" (Js.Text (Some 0%Q))
          (Js.Text (Some 3%Q)) (Js.Num 2025) emptyStore).
Proof.
  split.
  - destruct (recordPayment_outcome "p1" 1741000000 "c1" (Js.Text (Some 50%Q))
                (Js.Text (Some 3%Q)) (Js.Num 2025) emptyStore) as [_ Hok].
    destruct (Hok 50%Q) as [Hr _];
      [done | reflexivity | reflexivity | reflexivity | reflexivity | reflexivity |].
    rewrite Hr. reflexivity.
  - destruct (recordPayment_outcome "p1" 1741000000 "c1" (Js.Text (Some 0%Q))
                (Js.Text (Some 3%Q)) (Js.Num 2025) emptyStore) as [Hrej _].
    apply Hrej. right. right. right. left. exists 0%Q.
    split; [reflexivity | vm_compute; discriminate].
Defined.

(** With the year field cleared nothing is recorded although the amount is
    positive and the month is in range. *)
Lemma recordPayment_blank_year_rejected :
  Payments.handleAddPayment "p1" 1741000000 "c1" (Js.Text (Some 50%Q))
    (Js.Text (Some 3%Q)) (Js.Text None) emptyStore
  = (emptyStore, Some PaymentPeriodMissing).
Proof. reflexivity. Qed.

(** A month of 13 is recorded, not rejected; and a payment with a positive
    amount and the month 3 is rejected when the year field is empty. *)
Lemma recordPayment_as_stated_counterexample :
  ~ recordPayment_as_stated "p1" 1741000000 "c1" (Js.Text (Some 50%Q))
      (Js.Num 13) (Js.Num 2025) emptyStore
  /\ ~ recordPayment_as_stated "p1" 1741000000 "c1" (Js.Text (Some 50%Q))
        (Js.Text (Some 3%Q)) (Js.Text None) emptyStore.
Proof.
  split.
  - intros [Hrej _].
    destruct Hrej as [_ Hkind].
    + right. right. reflexivity.
    + vm_compute in Hkind. discriminate.
  - intros [_ Hrec].
    destruct Hrec as (p & Hp & _).
    + intros [(a & Ha & Hle) | [Hlow | Hhigh]].
      * injection Ha as <-. vm_compute in Hle. by apply Hle.
      * vm_compute in Hlow. discriminate.
      * vm_compute in Hhigh. discriminate.
    + rewrite recordPayment_blank_year_rejected in Hp. simpl in Hp.
      by rewrite lookup_empty in Hp.
Qed.

(* ===================================================================== *)
(** ** Deleting a modality *)

(** C7.  When some shift of the store has the modality's id,
    [confirmDeleteModality] fails with ReferentialConflict, writes nothing
    and the modality document is still there; when no shift has it, the
    modality's document is deleted and nothing else changes. *)
Theorem deleteModality_guarded (modalityToDelete : string) (db : Store) :
  let r := Modalities.confirmDeleteModality modalityToDelete db in
  ((exists sid s, shiftsColl db !! sid = Some s /\ modalityId s = modalityToDelete) ->
     failsWith ReferentialConflict db r
     /\ modalitiesColl r.1 !! modalityToDelete = modalitiesColl db !! modalityToDelete)
  /\ ((forall sid s, shiftsColl db !! sid = Some s -> modalityId s ≠ modalityToDelete) ->
     r = (withModalities db (delete modalityToDelete (modalitiesColl db)),
          Some ModalityDeleted)
     /\ modalitiesColl r.1 !! modalityToDelete = None).
Proof.
  intros r. subst r. unfold Modalities.confirmDeleteModality.
  destruct (queryWhere _ (shiftsColl db)) as [|x l] eqn:E; split.
  - intros (sid & s & Hs & Hm). exfalso.
    assert (Hin : (sid, s) ∈ queryWhere
              (fun s => bool_decide (modalityId s = modalityToDelete)) (shiftsColl db)).
    { apply elem_of_queryWhere. simpl. split; [done|]. by apply bool_decide_eq_true. }
    rewrite E in Hin. by apply elem_of_nil in Hin.
  - intros _. split; [done|]. simpl. apply lookup_delete_eq.
  - intros _. by repeat split.
  - intros Hnone. exfalso.
    assert (Hin : x ∈ queryWhere
              (fun s => bool_decide (modalityId s = modalityToDelete)) (shiftsColl db)).
    { rewrite E. apply list_elem_of_here. }
    apply elem_of_queryWhere in Hin as [Hx Hm].
    apply bool_decide_eq_true in Hm. by apply (Hnone _ _ Hx).
Qed.

Lemma deleteModality_guarded_witness :
  let yoga := mkModality "Yoga" 30 "" in
  let db := mkStore {[ "s1" := mkShift "2025-03-01" "10:00" 5 "m1" [] 0 ]} ∅ ∅
                    {[ "m1" := yoga; "m2" := mkModality "Pilates" 40 "" ]} in
  failsWith ReferentialConflict db (Modalities.confirmDeleteModality "m1" db)
  /\ modalitiesColl (Modalities.confirmDeleteModality "m2" db).1 !! "m2" = None.
Proof.
  intros yoga db. split.
  - destruct (deleteModality_guarded "m1" db) as [Hused _].
    apply Hused.
    exists "s1", (mkShift "2025-03-01" "10:00" 5 "m1" [] 0).
    split; reflexivity.
  - destruct (deleteModality_guarded "m2" db) as [_ Hfree].
    apply Hfree. intros sid s Hs.
    destruct (decide (sid = "s1")) as [->|Hne].
    + vm_compute in Hs. injection Hs as <-. discriminate.
    + unfold db in Hs. simpl in Hs. rewrite lookup_singleton_ne in Hs; done.
Defined.


(* ===================================================================== *)
(** ** Deleting a client *)

Section Cascade.
Variable clientToDelete : string.

Lemma fst_filter_NoDup {A} (P : string * A -> bool) (l : list (string * A)) :
  NoDup l.*1 -> NoDup (List.filter P l).*1.
Proof.
  induction l as [|x l IH]; [done|]. simpl.
  rewrite NoDup_cons. intros [Hx Hl].
  destruct (P x); [|by apply IH]. simpl.
  apply NoDup_cons. split; [|by apply IH].
  intros Hin. apply Hx.
  apply list_elem_of_fmap in Hin as (y & -> & Hy).
  apply list_elem_of_fmap. exists y. split; [done|].
  by apply list_elem_of_In, filter_In in Hy as [Hy%list_elem_of_In _].
Qed.

Lemma queryWhere_NoDup {A} (P : A -> bool) (c : gmap string A) :
  NoDup (queryWhere P c).*1.
Proof. apply fst_filter_NoDup, NoDup_fst_map_to_list. Qed.

(** The payment deletes touch the payments only, and exactly the
    documents listed. *)
Lemma deletePayments_frame (l : list (string * Payment)) (db : Store) :
  let db' := foldl ClientsManagement.deletePaymentDoc db l in
  shiftsColl db' = shiftsColl db
  /\ clientsColl db' = clientsColl db
  /\ modalitiesColl db' = modalitiesColl db
  /\ forall pid, paymentsColl db' !! pid
       = if decide (pid ∈ l.*1) then None else paymentsColl db !! pid.
Proof.
  revert db. induction l as [|x l IH]; intros db; simpl.
  - by split_and!.
  - destruct (IH (ClientsManagement.deletePaymentDoc db x)) as (Hs & Hc & Hm & Hp).
    rewrite Hs, Hc, Hm. split_and!; try done.
    intros pid. rewrite Hp. simpl. unfold deleteDoc.
    destruct (decide (pid ∈ l.*1)) as [Hin|Hin].
    + rewrite decide_True; [done|]. by right.
    + destruct (decide (pid = x.1)) as [->|Hne].
      * rewrite decide_True by left. apply lookup_delete_eq.
      * rewrite decide_False.
        -- by apply lookup_delete_ne.
        -- intros [?|?]%elem_of_cons; done.
Qed.

(** The shift updates touch the shifts only; each listed document gets
    the list read by the query with the client filtered out. *)
Lemma unbookShifts_frame (l : list (string * Shift)) (db : Store) :
  NoDup l.*1 ->
  (forall x, x ∈ l -> shiftsColl db !! x.1 = Some x.2) ->
  let db' := foldl (ClientsManagement.unbookFromShiftDoc clientToDelete) db l in
  clientsColl db' = clientsColl db
  /\ paymentsColl db' = paymentsColl db
  /\ modalitiesColl db' = modalitiesColl db
  /\ forall sid, shiftsColl db' !! sid
       = (fun s => if decide (sid ∈ l.*1)
                   then setBookedClients (without clientToDelete (bookedClients s)) s
                   else s) <$> shiftsColl db !! sid.
Proof.
  revert db. induction l as [|x l IH]; intros db Hnd Hin; simpl.
  - split_and!; try done. intros sid. by destruct (shiftsColl db !! sid).
  - apply NoDup_cons in Hnd as [Hx Hnd].
    pose proof (Hin x ltac:(left)) as Hxs.
    assert (Hstep : ClientsManagement.unbookFromShiftDoc clientToDelete db x
              = withShifts db
                  (<[x.1 := setBookedClients
                              (without clientToDelete (bookedClients x.2)) x.2]>
                     (shiftsColl db))).
    { unfold ClientsManagement.unbookFromShiftDoc.
      by rewrite (updateDoc_Some _ _ _ _ Hxs). }
    rewrite Hstep.
    edestruct (IH (withShifts db
                     (<[x.1 := setBookedClients
                                 (without clientToDelete (bookedClients x.2)) x.2]>
                        (shiftsColl db)))) as (Hc & Hp & Hm & Hs); [done| |].
    { intros y Hy. simpl. rewrite lookup_insert_ne.
      - apply Hin. by right.
      - intros Heq. apply Hx. rewrite Heq.
        apply list_elem_of_fmap. by exists y. }
    rewrite Hc, Hp, Hm. split_and!; try done.
    intros sid. rewrite Hs. simpl.
    destruct (decide (sid = x.1)) as [->|Hne].
    + rewrite lookup_insert_eq, Hxs. simpl.
      rewrite decide_False by done. by rewrite decide_True by left.
    + rewrite lookup_insert_ne by done.
      destruct (shiftsColl db !! sid) as [s|]; [|done]. simpl.
      destruct (decide (sid ∈ l.*1)) as [Hl|Hl].
      * by rewrite decide_True by (by right).
      * rewrite decide_False; [done|].
        intros [?|?]%elem_of_cons; done.
Qed.

(** What [confirmDeleteClient] leaves in each collection. *)
Lemma confirmDeleteClient_result (db : Store) :
  let r := ClientsManagement.confirmDeleteClient clientToDelete db in
  r.2 = Some ClientDeleted
  /\ clientsColl r.1 = delete clientToDelete (clientsColl db)
  /\ modalitiesColl r.1 = modalitiesColl db
  /\ (forall pid, paymentsColl r.1 !! pid
        = p ← paymentsColl db !! pid;
          if decide (clientId p = clientToDelete) then None else Some p)
  /\ (forall sid, shiftsColl r.1 !! sid
        = (fun s => setBookedClients (without clientToDelete (bookedClients s)) s)
            <$> shiftsColl db !! sid).
Proof.
  unfold ClientsManagement.confirmDeleteClient. cbv zeta. cbn [fst snd].
  set (db1 := withClients db (deleteDoc clientToDelete (clientsColl db))).
  set (ps := queryWhere (fun p => bool_decide (clientId p = clientToDelete))
               (paymentsColl db1)).
  destruct (deletePayments_frame ps db1) as (Hs2 & Hc2 & Hm2 & Hp2).
  set (db2 := foldl ClientsManagement.deletePaymentDoc db1 ps) in *.
  set (ss := queryWhere (fun s => includes (bookedClients s) clientToDelete)
               (shiftsColl db2)).
  destruct (unbookShifts_frame ss db2) as (Hc3 & Hp3 & Hm3 & Hs3).
  { apply queryWhere_NoDup. }
  { intros x Hx. by apply elem_of_queryWhere in Hx as [Hx _]. }
  split; [done|]. rewrite Hc3, Hc2, Hm3, Hm2, Hp3.
  split; [done|]. split; [done|]. split.
  - intros pid. rewrite Hp2. simpl.
    destruct (paymentsColl db !! pid) as [p|] eqn:E; simpl.
    + destruct (decide (clientId p = clientToDelete)) as [Hc|Hc].
      * rewrite decide_True; [done|].
        apply list_elem_of_fmap. exists (pid, p). split; [done|].
        apply elem_of_queryWhere. simpl. split; [done|].
        by apply bool_decide_eq_true.
      * rewrite decide_False; [done|].
        intros (y & -> & Hy)%list_elem_of_fmap.
        apply elem_of_queryWhere in Hy as [Hy Hb]. simpl in Hy.
        apply bool_decide_eq_true in Hb. congruence.
    + destruct (decide (pid ∈ ps.*1)); done.
  - intros sid. rewrite Hs3, Hs2. simpl.
    destruct (shiftsColl db !! sid) as [s|] eqn:E; [|done]. simpl. f_equal.
    destruct (decide (sid ∈ ss.*1)) as [Hin|Hin]; [done|].
    rewrite without_id; [by rewrite setBookedClients_same|].
    intros Hbooked. apply Hin.
    apply list_elem_of_fmap. exists (sid, s). split; [done|].
    apply elem_of_queryWhere. simpl. rewrite Hs2. simpl. split; [done|].
    by apply includes_true.
Qed.

End Cascade.

(** C6.  After [confirmDeleteClient] the client's document is absent, no
    payment carries the client's id, and no shift has the id in
    bookedClients; payments of other clients and all other bookings are as
    before. *)
Theorem deleteClient_cascades (clientToDelete : string) (db : Store) :
  let r := ClientsManagement.confirmDeleteClient clientToDelete db in
  clientsColl r.1 !! clientToDelete = None
  /\ (forall pid p, paymentsColl r.1 !! pid = Some p -> clientId p ≠ clientToDelete)
  /\ (forall sid s, shiftsColl r.1 !! sid = Some s -> clientToDelete ∉ bookedClients s)
  /\ (forall pid p, paymentsColl db !! pid = Some p -> clientId p ≠ clientToDelete ->
        paymentsColl r.1 !! pid = Some p)
  /\ (forall sid s, shiftsColl db !! sid = Some s ->
        shiftsColl r.1 !! sid
        = Some (setBookedClients (without clientToDelete (bookedClients s)) s))
  /\ r.2 ≫= kind = None.
Proof.
  intros r. subst r.
  destruct (confirmDeleteClient_result clientToDelete db)
    as (Hn & Hc & _ & Hp & Hs).
  split; [rewrite Hc; apply lookup_delete_eq|].
  split.
  { intros pid p. rewrite Hp.
    destruct (paymentsColl db !! pid) as [q|]; simpl; [|done].
    destruct (decide (clientId q = clientToDelete)); [done|]. congruence. }
  split.
  { intros sid s. rewrite Hs.
    destruct (shiftsColl db !! sid) as [q|]; simpl; [|done].
    intros [= <-]. simpl. apply without_absent. }
  split.
  { intros pid p Hpid Hne. rewrite Hp, Hpid. simpl. by rewrite decide_False. }
  split.
  { intros sid s Hsid. by rewrite Hs, Hsid. }
  by rewrite Hn.
Qed.

(** The example of the design: two payments and one booking. *)
Lemma deleteClient_cascades_witness :
  let db := mkStore
      {[ "s1" := mkShift "2025-03-01" "10:00" 5 "m1" ["c2"; "c1"] 0 ]}
      {[ "c1" := mkClient "Ana" "" "" None None;
         "c2" := mkClient "Luis" "" "" None None ]}
      {[ "p1" := mkPayment "c1" 100 0 2 2025;
         "p2" := mkPayment "c1" 100 0 3 2025;
         "p3" := mkPayment "c2" 100 0 3 2025 ]}
      ∅ in
  let after := (ClientsManagement.confirmDeleteClient "c1" db).1 in
  clientsColl after !! "c1" = None
  /\ shiftsColl after !! "s1" = Some (mkShift "2025-03-01" "10:00" 5 "m1" ["c2"] 0)
  /\ paymentsColl after !! "p3" = Some (mkPayment "c2" 100 0 3 2025)
  /\ after
     = mkStore
         {[ "s1" := mkShift "2025-03-01" "10:00" 5 "m1" ["c2"] 0 ]}
         {[ "c2" := mkClient "Luis" "" "" None None ]}
         {[ "p3" := mkPayment "c2" 100 0 3 2025 ]}
         ∅.
Proof.
  intros db after. subst after.
  destruct (deleteClient_cascades "c1" db) as (Hc & _ & _ & Hp & Hs & _).
  split; [exact Hc|]. split.
  - rewrite (Hs "s1" (mkShift "2025-03-01" "10:00" 5 "m1" ["c2"; "c1"] 0));
      reflexivity.
  - split; [|reflexivity].
    apply Hp; [reflexivity | discriminate].
Defined.


(* ===================================================================== *)
(** ** Resolving the client profile of an account *)

Section Resolver.
Variables (tenant : string -> Store) (userId : string).

Lemma elem_of_matching uid x :
  x ∈ queryWhere (fun c => bool_decide (associatedUserUid c = Some userId))
        (clientsColl (tenant uid))
  <-> linkedTo userId (clientsColl (tenant uid)) x.
Proof.
  unfold linkedTo. rewrite elem_of_queryWhere.
  by rewrite bool_decide_eq_true.
Qed.

(** Nobody linked: the scan queries every administrator and finds
    nothing. *)
Lemma scanUsers_nowhere (userDocs : list (string * User)) :
  (forall d, d ∈ userDocs -> role d.2 = "admin" ->
     forall x, ~ linkedTo userId (clientsColl (tenant d.1)) x) ->
  ClientDashboard.scanUsers tenant userId userDocs
  = ClientDashboard.mkScan None None (adminsOf userDocs).
Proof.
  induction userDocs as [|d l IH]; intros Hno; [done|].
  unfold adminsOf in *. simpl.
  assert (IH' := IH (fun d' Hd' => Hno d' (list_elem_of_further _ _ _ Hd'))).
  destruct (bool_decide (role d.2 = "admin")) eqn:E; [|done].
  apply bool_decide_eq_true in E.
  destruct (queryWhere _ (clientsColl (tenant d.1))) as [|x m] eqn:M.
  - by rewrite IH'.
  - exfalso. apply (Hno d ltac:(left) E x).
    apply elem_of_matching. rewrite M. left.
Qed.

(** The first administrator with a linked client ends the scan. *)
Lemma scanUsers_first (pre post : list (string * User)) (t : string) (u : User) :
  role u = "admin" ->
  (forall d, d ∈ pre -> role d.2 = "admin" ->
     forall x, ~ linkedTo userId (clientsColl (tenant d.1)) x) ->
  (exists x, linkedTo userId (clientsColl (tenant t)) x) ->
  exists x, linkedTo userId (clientsColl (tenant t)) x
    /\ ClientDashboard.scanUsers tenant userId (pre ++ (t, u) :: post)%list
       = ClientDashboard.mkScan (Some x) (Some t) (adminsOf pre ++ [t])%list.
Proof.
  intros Hadmin Hpre Hex.
  induction pre as [|d l IH]; simpl.
  - rewrite bool_decide_eq_true_2 by done.
    destruct (queryWhere _ (clientsColl (tenant t))) as [|x m] eqn:M.
    + exfalso. destruct Hex as [x Hx].
      apply elem_of_matching in Hx. rewrite M in Hx. by apply elem_of_nil in Hx.
    + exists x. split; [|done]. apply elem_of_matching. rewrite M. left.
  - destruct IH as (x & Hx & Hscan).
    { intros d' Hd'. apply Hpre. by right. }
    exists x. split; [done|]. unfold adminsOf in *. simpl.
    destruct (bool_decide (role d.2 = "admin")) eqn:E; [|done].
    apply bool_decide_eq_true in E.
    destruct (queryWhere _ (clientsColl (tenant d.1))) as [|y m] eqn:M.
    + by rewrite Hscan.
    + exfalso. apply (Hpre d ltac:(left) E y).
      apply elem_of_matching. rewrite M. left.
Qed.

End Resolver.

(** C5.  When exactly one administrator's client directory holds a client
    linked to the account, [fetchClientProfile] returns that administrator's
    id with a linked client of that directory, shows no notice, and queries
    no administrator that comes after it in the scan; when no
    administrator's directory holds one, it sets no profile and shows the
    not-associated notice. *)
Theorem resolver_finds_association (users : gmap string User)
    (tenant : string -> Store) (userId : string) :
  (forall t u,
     users !! t = Some u -> role u = "admin" ->
     (exists x, linkedTo userId (clientsColl (tenant t)) x) ->
     (forall t' u', users !! t' = Some u' -> role u' = "admin" -> t' ≠ t ->
        forall x, ~ linkedTo userId (clientsColl (tenant t')) x) ->
     exists (x : string * Client) (pre post : list (string * User)),
       linkedTo userId (clientsColl (tenant t)) x
       /\ docs users = (pre ++ (t, u) :: post)%list
       /\ ClientDashboard.fetchClientProfile users tenant userId
          = (Some x, Some t, None, (adminsOf pre ++ [t])%list))
  /\ ((forall t u, users !! t = Some u -> role u = "admin" ->
         forall x, ~ linkedTo userId (clientsColl (tenant t)) x) ->
      ClientDashboard.fetchClientProfile users tenant userId
      = (None, None, Some ProfileNotAssociated, adminsOf (docs users))
      /\ kind ProfileNotAssociated = Some NotAssociated).
Proof.
  split.
  - intros t u Hu Hadmin Hex Huniq.
    assert (Hin : (t, u) ∈ docs users) by by apply elem_of_docs.
    apply list_elem_of_split in Hin as (pre & post & Hsplit).
    assert (Hnd : NoDup (docs users).*1) by apply NoDup_fst_map_to_list.
    destruct (scanUsers_first tenant userId pre post t u Hadmin) as (x & Hx & Hscan);
      [|done|].
    { intros d Hd Hrole. apply (Huniq d.1 d.2); [|done|].
      - apply elem_of_docs. rewrite Hsplit. apply elem_of_app. by left.
      - intros Heq. rewrite Hsplit, fmap_app in Hnd.
        apply NoDup_app in Hnd as (_ & Hdisj & _).
        apply (Hdisj d.1).
        + apply list_elem_of_fmap. by exists d.
        + simpl. rewrite Heq. left. }
    exists x, pre, post. split; [done|]. split; [done|].
    unfold ClientDashboard.fetchClientProfile. rewrite Hsplit, Hscan. done.
  - intros Hno. split; [|done].
    unfold ClientDashboard.fetchClientProfile.
    rewrite scanUsers_nowhere; [done|].
    intros d Hd Hrole. apply (Hno d.1 d.2); [|done]. by apply elem_of_docs.
Qed.

Lemma resolver_finds_association_witness :
  let users : gmap string User :=
    {[ "admin1" := mkUser "a1@gym" "admin"; "admin2" := mkUser "a2@gym" "admin";
       "u7" := mkUser "ana@mail" "client" ]} in
  let ana := mkClient "Ana" "" "" (Some "u7") None in
  let tenant := fun uid : string =>
    if bool_decide (uid = "admin2")
    then mkStore ∅ {[ "c1" := ana; "c2" := mkClient "Luis" "" "" None None ]} ∅ ∅
    else emptyStore in
  (ClientDashboard.fetchClientProfile users tenant "u7").1.1
  = (Some ("c1", ana), Some "admin2")
  /\ (ClientDashboard.fetchClientProfile users tenant "u9").1.2
     = Some ProfileNotAssociated.
Proof.
  intros users ana tenant.
  destruct (resolver_finds_association users tenant "u7") as [Hfound _].
  destruct (resolver_finds_association users tenant "u9") as [_ Hnone].
  split.
  - destruct (Hfound "admin2" (mkUser "a2@gym" "admin")) as (x & pre & post & _ & _ & Hr);
      [reflexivity | reflexivity | | |].
    + exists ("c1", ana). split; reflexivity.
    + intros t' u' Hu' _ Hne x [Hx _].
      assert (tenant t' = emptyStore) as Ht.
      { unfold tenant. by rewrite bool_decide_eq_false_2. }
      rewrite Ht in Hx. simpl in Hx. by rewrite lookup_empty in Hx.
    + rewrite Hr. simpl.
      assert (Hv : ClientDashboard.fetchClientProfile users tenant "u7"
                   = (Some ("c1", ana), Some "admin2", None, ["admin1"; "admin2"]))
        by (vm_compute; reflexivity).
      rewrite Hr in Hv. by injection Hv as -> _.
  - destruct Hnone as [Hr _].
    + intros t u _ _ [i c] [Hx Hl]. simpl in *. unfold tenant in Hx.
      destruct (bool_decide (t = "admin2")); simpl in Hx.
      * destruct (decide (i = "c1")) as [->|E];
          [|destruct (decide (i = "c2")) as [->|E2]].
        -- vm_compute in Hx. injection Hx as <-. discriminate.
        -- vm_compute in Hx. injection Hx as <-. discriminate.
        -- rewrite lookup_insert_ne in Hx by done.
           rewrite lookup_singleton_ne in Hx by done. done.
      * by rewrite lookup_empty in Hx.
    + by rewrite Hr.
Defined.


(* ===================================================================== *)
(** ** The shift invariant along sequences of operations *)

Section Steps.
Variables (db : Store) (sid : string) (s' : Shift).








End Steps.

(** The array a component holds right after a delivery: the snapshot of
    the store, or its future part, was delivered by this state and shows
    every shift as the store has it. *)
Lemma delivered_docs (keep : Shift -> bool) (db : Store) (hist : list Store) :
  deliveredFrom (db :: hist) (List.filter (fun x => keep x.2) (docs (shiftsColl db))).
Proof.
  exists db. split; [apply list_elem_of_here|].
  intros x Hx. apply list_elem_of_In, filter_In in Hx as [Hx _].
  apply list_elem_of_In in Hx. by apply elem_of_docs.
Qed.

Lemma current_docs (keep : Shift -> bool) (db : Store) shiftId (x : string * Shift) s :
  findById shiftId (List.filter (fun x => keep x.2) (docs (shiftsColl db))) = Some x ->
  shiftsColl db !! shiftId = Some s ->
  (capacity x.2 <= capacity s)%Q.
Proof.
  intros H Hs. apply findById_filter_docs in H as [_ H].
  rewrite Hs in H. injection H as ->. apply Qle_refl.
Qed.














(** A booking that reads an array delivered before the capacity was
    lowered overbooks the shift, although the update itself entered a
    capacity the bookings fitted. *)
Lemma shiftInvariant_stale_array_overbooked :
  let ops :=
    [ AddShift "s1" 0 "2025-03-01" "10:00" (Js.Text (Some 2%Q)) "m1";
      BookClient [("s1", mkShift "2025-03-01" "10:00" 2 "m1" [] 0)] "c1" "s1";
      UpdateShift (Some ("s1", mkShift "2025-03-01" "10:00" 2 "m1" ["c1"] 0))
                  "2025-03-01" "10:00" (Js.Text (Some 1%Q)) "m1";
      BookClient [("s1", mkShift "2025-03-01" "10:00" 2 "m1" ["c1"] 0)] "c2" "s1" ] in
  arraysDelivered [] ops emptyStore
  /\ keepCapacity ops emptyStore = true
  /\ shiftsColl (run ops emptyStore) !! "s1"
     = Some (mkShift "2025-03-01" "10:00" 1 "m1" ["c1"; "c2"] 0).
Proof.
  intros ops. split_and!; [|reflexivity..].
  cbn [arraysDelivered reads ops]. split_and!; try done.
  - eexists. split; [apply list_elem_of_here|].
    by intros x ->%list_elem_of_singleton.
  - eexists. split; [apply list_elem_of_further, list_elem_of_here|].
    by intros x ->%list_elem_of_singleton.
Qed.

(** A shift created with the capacity 0.5 that [handleAddShift] lets
    through is overbooked by its first booking. *)
Lemma shiftInvariant_fraction_overbooked :
  shiftsColl
    (run [ AddShift "s1" 0 "2025-03-01" "10:00" (Js.Text (Some (1 # 2)%Q)) "m1";
           BookClient [("s1", mkShift "2025-03-01" "10:00" (1 # 2) "m1" [] 0)]
                      "c1" "s1" ] emptyStore) !! "s1"
  = Some (mkShift "2025-03-01" "10:00" (1 # 2) "m1" ["c1"] 0).
Proof. reflexivity. Qed.


(* ===================================================================== *)
(** * The rest of the program *)

(** ** Sorting by date *)

Section SortFacts.
Context {A : Type}.
Variables (comparefn : A -> A -> Z) (key : A -> Z).

Lemma insertSorted_Permutation (x : A) (l : list A) :
  insertSorted comparefn x l ≡ₚ x :: l.
Proof.
  induction l as [|y l IH]; simpl; [done|].
  destruct (comparefn x y <=? 0)%Z; [done|].
  rewrite IH. apply Permutation_swap.
Qed.

Lemma jsSort_Permutation (l : list A) : jsSort comparefn l ≡ₚ l.
Proof.
  induction l as [|x l IH]; simpl; [done|].
  by rewrite insertSorted_Permutation, IH.
Qed.

Lemma insertSorted_sorted (x : A) (l : list A) :
  (forall y, y ∈ l -> comparefn x y = (key x - key y)%Z) ->
  StronglySorted (fun a b => (key a <= key b)%Z) l ->
  StronglySorted (fun a b => (key a <= key b)%Z) (insertSorted comparefn x l).
Proof.
  induction l as [|y l IH]; intros Hcmp Hs; simpl.
  - repeat constructor.
  - apply StronglySorted_inv in Hs as [Hl Hy].
    rewrite (Hcmp y) by left.
    destruct (Z.leb_spec (key x - key y) 0) as [Hle|Hgt].
    + constructor; [by constructor|].
      constructor; [lia|].
      eapply Forall_impl; [exact Hy|]. simpl. intros; lia.
    + constructor.
      * apply IH; [|done]. intros z Hz. apply Hcmp. by right.
      * rewrite insertSorted_Permutation. constructor; [lia|done].
Qed.

Lemma jsSort_sorted (l : list A) :
  (forall x y, x ∈ l -> y ∈ l -> comparefn x y = (key x - key y)%Z) ->
  StronglySorted (fun a b => (key a <= key b)%Z) (jsSort comparefn l).
Proof.
  induction l as [|x l IH]; intros Hcmp; simpl; [constructor|].
  apply insertSorted_sorted.
  - intros y Hy. rewrite jsSort_Permutation in Hy.
    apply Hcmp; [left | by right].
  - apply IH. intros a b Ha Hb. apply Hcmp; by right.
Qed.

End SortFacts.

Section FutureShifts.
Variables (parseDate : string -> option Z) (now : Z).

Lemma isFuture_spec (x : string * Shift) :
  isFuture parseDate now x = true
  <-> exists t, shiftDateTime parseDate x = Some t /\ (now < t)%Z.
Proof.
  unfold isFuture. destruct (shiftDateTime parseDate x) as [t|].
  - rewrite Z.ltb_lt. split; [eauto|]. by intros (t' & [= <-] & H).
  - split; [done|]. by intros (t' & ? & _).
Qed.

Lemma future_sorted (l : list (string * Shift)) :
  StronglySorted (fun a b => (timeOrZero parseDate a <= timeOrZero parseDate b)%Z)
    (jsSort (byDateTime parseDate) (List.filter (isFuture parseDate now) l)).
Proof.
  apply jsSort_sorted. intros x y Hx Hy.
  apply list_elem_of_In, filter_In in Hx as [_ Hx].
  apply list_elem_of_In, filter_In in Hy as [_ Hy].
  apply isFuture_spec in Hx as (tx & Hx & _).
  apply isFuture_spec in Hy as (ty & Hy & _).
  unfold byDateTime, timeOrZero. by rewrite Hx, Hy.
Qed.

Lemma sorted_by_time (l : list (string * Shift)) :
  StronglySorted (fun a b => (timeOrZero parseDate a <= timeOrZero parseDate b)%Z) l ->
  (forall x, x ∈ l -> is_Some (shiftDateTime parseDate x)) ->
  StronglySorted
    (fun a b => forall ta tb, shiftDateTime parseDate a = Some ta ->
                              shiftDateTime parseDate b = Some tb -> (ta <= tb)%Z) l.
Proof.
  induction 1 as [|x l Hs IH Hx]; intros Hv; constructor.
  - apply IH. intros y Hy. apply Hv. by right.
  - eapply Forall_impl; [exact Hx|]. simpl.
    intros y Hle ta tb Ha Hb. unfold timeOrZero in Hle. by rewrite Ha, Hb in Hle.
Qed.

Lemma futureShifts_facts (shiftsData : list (string * Shift)) :
  let arr := SelfService.futureShifts parseDate now shiftsData in
  arr ≡ₚ List.filter (isFuture parseDate now) shiftsData
  /\ (forall x, x ∈ arr <->
        x ∈ shiftsData /\ exists t, shiftDateTime parseDate x = Some t /\ (now < t)%Z)
  /\ StronglySorted
       (fun a b => forall ta tb, shiftDateTime parseDate a = Some ta ->
                                 shiftDateTime parseDate b = Some tb -> (ta <= tb)%Z)
       arr.
Proof.
  intros arr. subst arr. unfold SelfService.futureShifts.
  assert (Hin : forall x,
    x ∈ jsSort (byDateTime parseDate) (List.filter (isFuture parseDate now) shiftsData)
    <-> x ∈ shiftsData /\ exists t, shiftDateTime parseDate x = Some t /\ (now < t)%Z).
  { intros x. rewrite jsSort_Permutation.
    by rewrite list_elem_of_In, filter_In, <- list_elem_of_In, isFuture_spec. }
  split; [apply jsSort_Permutation|]. split; [done|].
  apply sorted_by_time; [apply future_sorted|].
  intros x Hx. apply Hin in Hx as (_ & t & Ht & _). by exists t.
Qed.

(** X1.  The client's shifts array holds exactly the shifts whose date
    and time lie after now, each as often as the snapshot has it, in
    ascending order of date and time. *)
Theorem futureShifts_sorted_future (shiftsData : list (string * Shift)) :
  let arr := SelfService.futureShifts parseDate now shiftsData in
  arr ≡ₚ List.filter (isFuture parseDate now) shiftsData
  /\ (forall x, x ∈ arr <->
        x ∈ shiftsData /\ exists t, shiftDateTime parseDate x = Some t /\ (now < t)%Z)
  /\ StronglySorted
       (fun a b => forall ta tb, shiftDateTime parseDate a = Some ta ->
                                 shiftDateTime parseDate b = Some tb -> (ta <= tb)%Z)
       arr.
Proof. apply futureShifts_facts. Qed.

(** X2.  The Dashboard's upcoming shifts are at most five shifts of the
    array, all after now, in ascending order of date and time, and no
    future shift left out is earlier than one that is shown. *)
Theorem upcomingShifts_earliest_five (shifts : list (string * Shift)) :
  let up := DashboardSummary.upcomingShifts parseDate now shifts in
  (length up <= 5)%nat
  /\ (forall x, x ∈ up ->
        x ∈ shifts /\ exists t, shiftDateTime parseDate x = Some t /\ (now < t)%Z)
  /\ StronglySorted
       (fun a b => forall ta tb, shiftDateTime parseDate a = Some ta ->
                                 shiftDateTime parseDate b = Some tb -> (ta <= tb)%Z)
       up
  /\ (forall x y tx ty,
        x ∈ up -> y ∈ shifts -> y ∉ up ->
        shiftDateTime parseDate x = Some tx ->
        shiftDateTime parseDate y = Some ty -> (now < ty)%Z ->
        (tx <= ty)%Z).
Proof.
  intros up. subst up. unfold DashboardSummary.upcomingShifts.
  destruct (futureShifts_facts shifts) as (Hperm & Hin & Hsorted).
  unfold SelfService.futureShifts in *.
  set (l := jsSort (byDateTime parseDate)
              (List.filter (isFuture parseDate now) shifts)) in *.
  split; [rewrite length_take; lia|].
  split.
  { intros x Hx. apply Hin. by apply elem_of_take in Hx as (i & Hx%list_elem_of_lookup_2 & _). }
  rewrite <- (take_drop 5 l) in Hsorted.
  split; [by apply StronglySorted_app_1_l in Hsorted|].
  intros x y tx ty Hx Hy Hny Htx Hty Hnow.
  assert (Hyl : y ∈ l) by (apply Hin; eauto).
  rewrite <- (take_drop 5 l) in Hyl.
  apply elem_of_app in Hyl as [Hyl|Hyl]; [done|].
  by apply (StronglySorted_app_1_elem_of _ _ _ _ _ Hsorted Hx Hyl).
Qed.

End FutureShifts.

Lemma futureShifts_sorted_future_witness :
  let parse := fun s : string =>
    if bool_decide (s = "2025-03-01T10:00") then Some 100%Z
    else if bool_decide (s = "2025-03-02T09:00") then Some 200%Z
    else if bool_decide (s = "2025-02-01T09:00") then Some 10%Z
    else None in
  let a := ("s1", mkShift "2025-03-02" "09:00" 5 "m1" [] 0) in
  let b := ("s2", mkShift "2025-03-01" "10:00" 5 "m1" [] 0) in
  let past := ("s3", mkShift "2025-02-01" "09:00" 5 "m1" [] 0) in
  let bad := ("s4", mkShift "" "" 5 "m1" [] 0) in
  SelfService.futureShifts parse 50 [a; past; bad; b] = [b; a]
  /\ (past ∉ SelfService.futureShifts parse 50 [a; past; bad; b])
  /\ (bad ∉ SelfService.futureShifts parse 50 [a; past; bad; b]).
Proof.
  intros parse a b past bad.
  destruct (futureShifts_sorted_future parse 50 [a; past; bad; b]) as (_ & Hin & _).
  split; [reflexivity|]. split.
  - intros (_ & t & Ht & Hlt)%Hin. vm_compute in Ht. injection Ht as <-. done.
  - intros (_ & t & Ht & _)%Hin. vm_compute in Ht. discriminate.
Defined.

Lemma upcomingShifts_earliest_five_witness :
  let parse := fun s : string =>
    match String.length s with
    | 16%nat => Some (Z.of_nat (Ascii.nat_of_ascii (default Ascii.zero (String.get 9 s))))
    | _ => None
    end in
  let day := fun d : string => mkShift ("2025-03-0" +:+ d) "10:00" 5 "m1" [] 0 in
  let week := [("s7", day "7"); ("s3", day "3"); ("s6", day "6"); ("s1", day "1");
               ("s5", day "5"); ("s2", day "2"); ("s4", day "4")] in
  DashboardSummary.upcomingShifts parse 48 week
  = [("s1", day "1"); ("s2", day "2"); ("s3", day "3"); ("s4", day "4"); ("s5", day "5")]
  /\ (49 <= 52)%Z.
Proof.
  intros parse day week.
  destruct (upcomingShifts_earliest_five parse 48 week) as (_ & _ & Hs & _).
  split; [reflexivity|].
  assert (Hup : DashboardSummary.upcomingShifts parse 48 week
     = [("s1", day "1"); ("s2", day "2"); ("s3", day "3"); ("s4", day "4"); ("s5", day "5")])
    by reflexivity.
  rewrite Hup in Hs.
  apply StronglySorted_inv in Hs as [_ Hall].
  apply Forall_inv_tail, Forall_inv_tail, Forall_inv in Hall.
  by apply Hall.
Defined.


(* ===================================================================== *)
(** ** Income and overdue clients *)

Lemma withPayments_same (db : Store) : withPayments db (paymentsColl db) = db.
Proof. by destruct db. Qed.

Lemma withClients_same (db : Store) : withClients db (clientsColl db) = db.
Proof. by destruct db. Qed.

Lemma withModalities_same (db : Store) : withModalities db (modalitiesColl db) = db.
Proof. by destruct db. Qed.

Lemma income_from (acc : Q) (l : list (string * Payment)) :
  (foldl (fun sum payment => sum + DashboardSummary.orZero (amount payment.2)) acc l
   == acc + DashboardSummary.totalIncome l)%Q.
Proof.
  unfold DashboardSummary.totalIncome. revert acc.
  induction l as [|x l IH]; intros acc; simpl; [ring|].
  rewrite (IH (acc + _)%Q), (IH (0 + _)%Q). ring.
Qed.

Lemma totalIncome_cons (x : string * Payment) (l : list (string * Payment)) :
  (DashboardSummary.totalIncome (x :: l)
   == DashboardSummary.orZero (amount x.2) + DashboardSummary.totalIncome l)%Q.
Proof.
  unfold DashboardSummary.totalIncome at 1. simpl. rewrite income_from. ring.
Qed.

Lemma orZero_nonneg (q : Q) : (0 <= q)%Q -> (0 <= DashboardSummary.orZero q)%Q.
Proof. unfold DashboardSummary.orZero. destruct (Qeq_bool q 0); lra. Qed.

(** What a successful [handleAddPayment] has checked and written. *)
Lemma handleAddPayment_recorded newId now client amt month year db :
  (Payments.handleAddPayment newId now client amt month year db).2
    = Some PaymentRecorded ->
  exists a, Js.parseFloat amt = Some a /\ (0 < a)%Q /\ client ≠ ""
    /\ Payments.handleAddPayment newId now client amt month year db
       = (withPayments db
            (<[newId := mkPayment client a now (Js.Number month) (Js.Number year)]>
               (paymentsColl db)),
          Some PaymentRecorded).
Proof.
  unfold Payments.handleAddPayment.
  destruct (Js.blank client || negb (Js.truthy amt)) eqn:E1; [done|].
  apply orb_false_iff in E1 as [Hc _]. apply blank_false in Hc.
  destruct (Js.parseFloat amt) as [a|]; [|done].
  destruct (Qle_bool a 0) eqn:E3; [done|]. apply Qle_bool_false in E3.
  destruct (_ || _); [done|]. intros _. by exists a.
Qed.

Lemma handleAddPayment_rejected_or_recorded newId now client amt month year db :
  (Payments.handleAddPayment newId now client amt month year db).1 = db
  \/ (Payments.handleAddPayment newId now client amt month year db).2
     = Some PaymentRecorded.
Proof.
  unfold Payments.handleAddPayment. repeat case_match; simpl; auto.
Qed.

Lemma totalIncome_nonneg (l : list (string * Payment)) :
  (forall x, x ∈ l -> (0 < amount x.2)%Q) ->
  (0 <= DashboardSummary.totalIncome l)%Q.
Proof.
  induction l as [|x l IH]; intros Hpos; [by vm_compute|].
  rewrite totalIncome_cons.
  assert (0 <= DashboardSummary.totalIncome l)%Q
    by (apply IH; intros y Hy; apply Hpos; by right).
  assert (0 <= DashboardSummary.orZero (amount x.2))%Q.
  { apply orZero_nonneg, Qlt_le_weak, Hpos. left. }
  lra.
Qed.

(** X4.  The three handlers that write to the payments collection
    (recording, deleting a payment, deleting a client) keep every stored
    amount above 0, and over such a collection the total income is not
    negative. *)
Theorem payments_stay_positive (db : Store) :
  positiveAmounts db ->
  (forall newId now client amt month year,
     positiveAmounts (Payments.handleAddPayment newId now client amt month year db).1)
  /\ (forall paymentToDelete,
     positiveAmounts (PaymentsList.confirmDeletePayment paymentToDelete db).1)
  /\ (forall clientToDelete,
     positiveAmounts (ClientsManagement.confirmDeleteClient clientToDelete db).1)
  /\ (0 <= DashboardSummary.totalIncome (docs (paymentsColl db)))%Q.
Proof.
  intros Hdb. split_and!.
  - intros newId now client amt month year pid p.
    destruct (handleAddPayment_rejected_or_recorded newId now client amt month year db)
      as [-> | E]; [apply Hdb|].
    apply handleAddPayment_recorded in E as (a & _ & Hpos & _ & ->). simpl.
    destruct (decide (pid = newId)) as [->|Hne].
    + rewrite lookup_insert_eq. by intros [= <-].
    + rewrite lookup_insert_ne by done. apply Hdb.
  - intros paymentToDelete pid p. simpl. unfold deleteDoc.
    intros [_ H]%lookup_delete_Some. by apply (Hdb pid).
  - intros clientToDelete pid p.
    destruct (confirmDeleteClient_result clientToDelete db) as (_ & _ & _ & Hp & _).
    rewrite Hp. destruct (paymentsColl db !! pid) as [q|] eqn:E; [|done]. simpl.
    destruct (decide _); [done|]. intros [= <-]. by apply (Hdb pid).
  - apply totalIncome_nonneg. intros [pid p] Hin.
    apply elem_of_docs in Hin. by apply (Hdb pid).
Qed.

Lemma payments_stay_positive_witness :
  let db := mkStore ∅ ∅ {[ "p1" := mkPayment "c1" 100 0 3 2025 ]} ∅ in
  positiveAmounts
    (Payments.handleAddPayment "p2" 5 "c2" (Js.Text (Some (25 # 2)%Q))
       (Js.Num 3) (Js.Num 2025) db).1
  /\ (0 <= DashboardSummary.totalIncome (docs (paymentsColl db)))%Q.
Proof.
  intros db.
  destruct (payments_stay_positive db) as (Hadd & _ & _ & Hnn).
  - intros pid p Hp. unfold db in Hp. simpl in Hp.
    apply lookup_singleton_Some in Hp as [_ <-]. reflexivity.
  - split; [apply Hadd | exact Hnn].
Defined.


Lemma filter_overdue_length (clients : list (string * Client))
    (payments : list (string * Payment)) (today : Js.Date) :
  DashboardSummary.overdueClientsCount clients payments today
  = if (10 <? Js.getDate today)%Z
    then length (List.filter
                   (fun c => negb (existsb (paidFor c.1 (Js.getMonth today + 1)
                                                    (Js.getFullYear today)) payments))
                   clients)
    else 0%nat.
Proof.
  unfold DashboardSummary.overdueClientsCount, Dashboard.getPaymentStatus. cbv zeta.
  induction clients as [|c l IH]; simpl.
  - by destruct (10 <? Js.getDate today)%Z.
  - destruct (existsb _ payments); simpl; [done|].
    destruct (10 <? Js.getDate today)%Z; simpl; [by rewrite IH | done].
Qed.

(** X5.  The Dashboard counts no client as overdue while the day of the
    month is at most 10; after the 10th it counts exactly the clients
    without a payment for the current month and year; and its all-clear
    message (count 0) appears iff no client's status is overdue. *)
Theorem overdueClientsCount_rule (clients : list (string * Client))
    (payments : list (string * Payment)) (today : Js.Date) :
  let n := DashboardSummary.overdueClientsCount clients payments today in
  ((Js.getDate today <= 10)%Z -> n = 0%nat)
  /\ ((10 < Js.getDate today)%Z ->
      n = length (List.filter
                    (fun c => negb (existsb (paidFor c.1 (Js.getMonth today + 1)
                                                     (Js.getFullYear today)) payments))
                    clients))
  /\ (n = 0%nat <->
      forall c, c ∈ clients ->
        Dashboard.getPaymentStatus payments today c.1 ≠ Vencido).
Proof.
  intros n. subst n. split_and!.
  - intros Hday. rewrite filter_overdue_length.
    by destruct (Z.ltb_spec 10 (Js.getDate today)); [lia|].
  - intros Hday. rewrite filter_overdue_length.
    by destruct (Z.ltb_spec 10 (Js.getDate today)); [|lia].
  - unfold DashboardSummary.overdueClientsCount.
    rewrite length_zero_iff_nil. split.
    + intros Hnil c Hc Hst.
      assert (Hin : In c (List.filter
        (fun client => match Dashboard.getPaymentStatus payments today client.1 with
                       | Vencido => true | _ => false end) clients)).
      { apply filter_In. split; [by apply list_elem_of_In|]. by rewrite Hst. }
      by rewrite Hnil in Hin.
    + intros Hall.
      destruct (List.filter _ clients) as [|c l] eqn:E; [done|]. exfalso.
      assert (Hin : In c (c :: l)) by apply in_eq. rewrite <- E in Hin.
      apply filter_In in Hin as [Hin Hst]. apply list_elem_of_In in Hin.
      apply (Hall c Hin). by destruct (Dashboard.getPaymentStatus _ _ _).
Qed.

Lemma overdueClientsCount_rule_witness :
  let clients := [("c1", mkClient "Ana" "" "" None None);
                  ("c2", mkClient "Luis" "" "" None None)] in
  let payments := [("p1", mkPayment "c1" 100 0 3 2025)] in
  DashboardSummary.overdueClientsCount clients payments (Js.mkDate 2025 2 10) = 0%nat
  /\ DashboardSummary.overdueClientsCount clients payments (Js.mkDate 2025 2 11) = 1%nat.
Proof.
  intros clients payments. split.
  - destruct (overdueClientsCount_rule clients payments (Js.mkDate 2025 2 10))
      as (Hearly & _).
    apply Hearly. vm_compute. discriminate.
  - destruct (overdueClientsCount_rule clients payments (Js.mkDate 2025 2 11))
      as (_ & Hlate & _).
    rewrite Hlate by reflexivity.
    reflexivity.
Defined.

(* ===================================================================== *)
(** ** A recorded payment and the status shown *)

(** X7.  A payment recorded for the month and year of today makes the
    client's status paid on the administrator's Dashboard and in the
    client list, whatever the day of the month. *)
Theorem recorded_payment_marks_paid (newId : string) (now : Z) (client : string)
    (amt month year : Js.Value) (db : Store) (today : Js.Date) :
  let r := Payments.handleAddPayment newId now client amt month year db in
  r.2 = Some PaymentRecorded ->
  (Js.Number month == inject_Z (Js.getMonth today + 1))%Q ->
  (Js.Number year == inject_Z (Js.getFullYear today))%Q ->
  Dashboard.getPaymentStatus (docs (paymentsColl r.1)) today client = AlDia
  /\ ClientsManagement.getPaymentStatus (docs (paymentsColl r.1)) today client = AlDia.
Proof.
  intros r Hok Hm Hy. subst r.
  apply handleAddPayment_recorded in Hok as (a & _ & _ & _ & ->). cbn [fst snd paymentsColl withPayments].
  assert (Hpaid : Dashboard.getPaymentStatus
            (docs (<[newId := mkPayment client a now (Js.Number month) (Js.Number year)]>
                     (paymentsColl db))) today client = AlDia).
  { apply status_paid.
    exists (newId, mkPayment client a now (Js.Number month) (Js.Number year)).
    split; [|done]. apply elem_of_docs. simpl. apply lookup_insert_eq. }
  split; done.
Qed.


Lemma recorded_payment_marks_paid_witness :
  Dashboard.getPaymentStatus
    (docs (paymentsColl
       (Payments.handleAddPayment "p1" 7 "c1" (Js.Text (Some 50%Q))
          (Js.Text (Some 3%Q)) (Js.Num 2025) emptyStore).1))
    (Js.mkDate 2025 2 28) "c1"
  = AlDia.
Proof.
  apply (recorded_payment_marks_paid "p1" 7 "c1" (Js.Text (Some 50%Q))
           (Js.Text (Some 3%Q)) (Js.Num 2025) emptyStore (Js.mkDate 2025 2 28));
    reflexivity.
Defined.

(* ===================================================================== *)
(** ** What the client is offered and what the handler accepts *)

Lemma findById_unique {A} (arr : list (string * A)) (x : string * A) :
  NoDup arr.*1 -> x ∈ arr -> findById x.1 arr = Some x.
Proof.
  unfold findById. induction arr as [|y arr IH]; intros Hnd Hin.
  - by apply elem_of_nil in Hin.
  - simpl in *. apply NoDup_cons in Hnd as [Hy Hnd].
    apply elem_of_cons in Hin as [->|Hin].
    + by rewrite bool_decide_eq_true_2.
    + rewrite bool_decide_eq_false_2; [by apply IH|].
      intros Heq. apply Hy. rewrite Heq.
      apply list_elem_of_fmap. by exists x.
Qed.

Lemma lessThan_true (a b : Q) : SelfService.lessThan a b = true <-> (a < b)%Q.
Proof.
  unfold SelfService.lessThan. rewrite Qlt_alt.
  destruct (a ?= b)%Q; split; done.
Qed.

Lemma lessThan_Qle_bool (a b : Q) : SelfService.lessThan a b = negb (Qle_bool b a).
Proof.
  destruct (Qle_bool b a) eqn:E; simpl.
  - apply Qle_bool_iff in E.
    destruct (SelfService.lessThan a b) eqn:L; [|done].
    apply lessThan_true in L. lra.
  - apply Qle_bool_false in E. by apply lessThan_true.
Qed.

(** X8.  For a shift of the client's array (ids unique, the document in
    the store): it is listed under the client's bookings iff
    [handleBookShift] answers already booked; it is listed as available
    iff [handleBookShift] books it; and it is in neither list iff the
    handler answers that it is full. *)
Theorem availableShifts_bookable (shifts : list (string * Shift))
    (userId : string) (db : Store) (x : string * Shift) :
  NoDup shifts.*1 -> x ∈ shifts -> is_Some (shiftsColl db !! x.1) ->
  let r := ClientDashboard.handleBookShift shifts userId x.1 db in
  (x ∈ SelfService.bookedShifts shifts userId <-> r.2 = Some SelfAlreadyBooked)
  /\ (x ∈ SelfService.availableShifts shifts userId <-> r.2 = Some SelfBooked)
  /\ ((x ∉ SelfService.bookedShifts shifts userId)
      /\ (x ∉ SelfService.availableShifts shifts userId) <-> r.2 = Some SelfShiftFull).
Proof.
  intros Hnd Hin [stored Hst] r. subst r.
  unfold ClientDashboard.handleBookShift, SelfService.bookedShifts,
    SelfService.availableShifts.
  rewrite (findById_unique _ _ Hnd Hin). cbv zeta.
  rewrite !list_elem_of_In, !filter_In, <- !list_elem_of_In.
  rewrite lessThan_Qle_bool.
  destruct (includes (bookedClients x.2) userId); simpl.
  - intuition discriminate.
  - destruct (Qle_bool (capacity x.2) (jsLength (bookedClients x.2))); simpl.
    + intuition discriminate.
    + rewrite (updateDoc_Some _ _ _ _ Hst). simpl. intuition discriminate.
Qed.

Lemma availableShifts_bookable_witness :
  let full := ("s1", mkShift "2025-03-01" "10:00" 1 "m1" ["u1"] 0) in
  let open := ("s2", mkShift "2025-03-02" "10:00" 2 "m1" ["u1"] 0) in
  let mine := ("s3", mkShift "2025-03-03" "10:00" 2 "m1" ["u7"] 0) in
  let db := mkStore {[ "s1" := full.2; "s2" := open.2; "s3" := mine.2 ]} ∅ ∅ ∅ in
  (ClientDashboard.handleBookShift [full; open; mine] "u7" "s2" db).2 = Some SelfBooked
  /\ (ClientDashboard.handleBookShift [full; open; mine] "u7" "s1" db).2
     = Some SelfShiftFull.
Proof.
  intros full open mine db.
  assert (Hnd : NoDup [full; open; mine].*1).
  { apply (bool_decide_unpack _). by vm_compute. }
  split.
  - destruct (availableShifts_bookable [full; open; mine] "u7" db open Hnd)
      as (_ & Hav & _).
    + apply list_elem_of_further, list_elem_of_here.
    + by eexists.
    + apply Hav. apply list_elem_of_In, filter_In.
      split; [simpl; tauto | reflexivity].
  - destruct (availableShifts_bookable [full; open; mine] "u7" db full Hnd)
      as (_ & _ & Hfull).
    + apply list_elem_of_here.
    + by eexists.
    + apply Hfull.
      split; intros [_ Hb]%list_elem_of_In%filter_In; vm_compute in Hb; discriminate.
Defined.

(* ===================================================================== *)
(** ** Round trips *)

Lemma without_snoc (x : string) (l : list string) :
  x ∉ l -> without x (l ++ [x]) = l.
Proof.
  intros Hx. unfold without. rewrite filter_app, filter_cons_False by naive_solver.
  rewrite filter_nil, app_nil_r. by apply without_id.
Qed.

Lemma setBookedClients_twice (l1 l2 : list string) (s : Shift) :
  setBookedClients l1 (setBookedClients l2 s) = setBookedClients l1 s.
Proof. done. Qed.

Lemma withShifts_shifts (db : Store) (m : gmap string Shift) :
  m = shiftsColl db -> withShifts db m = db.
Proof. intros ->. apply withShifts_same. Qed.

Section FutureArray.
Variables (parseDate : string -> option Z) (now : Z).

Lemma futureShifts_NoDup (c : gmap string Shift) :
  NoDup (SelfService.futureShifts parseDate now (docs c)).*1.
Proof.
  unfold SelfService.futureShifts. rewrite jsSort_Permutation.
  apply fst_filter_NoDup, NoDup_fst_map_to_list.
Qed.

(** Looking an id up in the client's array: the stored shift when it is
    in the future, nothing otherwise. *)
Lemma findById_futureShifts (c : gmap string Shift) (id : string) :
  findById id (SelfService.futureShifts parseDate now (docs c))
  = d ← c !! id; if isFuture parseDate now (id, d) then Some (id, d) else None.
Proof.
  destruct (futureShifts_facts parseDate now (docs c)) as (_ & Hin & _).
  destruct (findById id _) as [x|] eqn:F.
  - apply findById_Some in F as [Hx Hid]. apply Hin in Hx as [Hx Hfut].
    apply elem_of_docs in Hx. destruct x as [i d]. simpl in *. subst i.
    rewrite Hx. simpl. apply isFuture_spec in Hfut. by rewrite Hfut.
  - destruct (c !! id) as [d|] eqn:E; simpl; [|done].
    destruct (isFuture parseDate now (id, d)) eqn:Hfut; [|done]. exfalso.
    eapply (findById_None id _ (id, d)); [exact F| |done].
    apply Hin. split; [by apply elem_of_docs|]. by apply isFuture_spec.
Qed.

Lemma isFuture_setBookedClients (id : string) (l : list string) (s : Shift) :
  isFuture parseDate now (id, setBookedClients l s) = isFuture parseDate now (id, s).
Proof. done. Qed.

End FutureArray.

Lemma withShifts_twice (db : Store) (m1 m2 : gmap string Shift) :
  withShifts (withShifts db m1) m2 = withShifts db m2.
Proof. done. Qed.

Lemma withPayments_twice (db : Store) (m1 m2 : gmap string Payment) :
  withPayments (withPayments db m1) m2 = withPayments db m2.
Proof. done. Qed.

Lemma shift_eta (s : Shift) :
  mkShift (date s) (time s) (capacity s) (modalityId s) (bookedClients s) (createdAt s)
  = s.
Proof. by destruct s. Qed.

(** X9.  Booking a client who is not booked yet and then unbooking the same
    client leaves the store exactly as it was, in the administrator's
    handlers and in the client's own (over the future-shifts array),
    whether the booking went through or was refused. *)
Theorem book_then_unbook_restores (parseDate : string -> option Z) (now : Z)
    (db : Store) (shiftId client : string) (s : Shift) :
  shiftsColl db !! shiftId = Some s ->
  client ∉ bookedClients s ->
  (let db1 := (ShiftsManagement.handleBookClient
                 (docs (shiftsColl db)) client shiftId db).1 in
   (ShiftsManagement.handleRemoveClientFromShift
      (docs (shiftsColl db1)) shiftId client db1).1 = db)
  /\ (let db1 := (ClientDashboard.handleBookShift
                    (SelfService.futureShifts parseDate now (docs (shiftsColl db)))
                    client shiftId db).1 in
      (ClientDashboard.handleUnbookShift
         (SelfService.futureShifts parseDate now (docs (shiftsColl db1)))
         client shiftId db1).1 = db).
Proof.
  intros Hst Habs.
  assert (Hback : <[shiftId := s]> (shiftsColl db) = shiftsColl db) by by apply insert_id.
  apply includes_false in Habs as Hinc.
  split; cbv zeta.
  - unfold ShiftsManagement.handleBookClient at 1 2.
    rewrite findById_docs, Hst. simpl. rewrite Hinc.
    destruct (Js.blank client);
      [|destruct (Qle_bool (capacity s) (jsLength (bookedClients s)))];
      try rewrite (updateDoc_Some _ _ _ _ Hst); simpl;
      unfold ShiftsManagement.handleRemoveClientFromShift;
      rewrite findById_docs.
    + rewrite Hst. simpl. rewrite (updateDoc_Some _ _ _ _ Hst). simpl.
      rewrite without_id, setBookedClients_same by done. by apply withShifts_shifts.
    + rewrite Hst. simpl. rewrite (updateDoc_Some _ _ _ _ Hst). simpl.
      rewrite without_id, setBookedClients_same by done. by apply withShifts_shifts.
    + simpl. rewrite lookup_insert_eq. simpl.
      erewrite updateDoc_Some by apply lookup_insert_eq. simpl.
      rewrite without_snoc by done. unfold setBookedClients. simpl.
      rewrite shift_eta, insert_insert_eq, Hback, withShifts_twice. apply withShifts_same.
  - unfold ClientDashboard.handleBookShift at 1 2.
    rewrite findById_futureShifts, Hst. simpl.
    destruct (isFuture parseDate now (shiftId, s)) eqn:Hfut; simpl.
    + rewrite Hinc.
      destruct (Qle_bool (capacity s) (jsLength (bookedClients s)));
        try rewrite (updateDoc_Some _ _ _ _ Hst); simpl;
        unfold ClientDashboard.handleUnbookShift;
        rewrite findById_futureShifts.
      * rewrite Hst. simpl. rewrite Hfut. simpl.
        rewrite (updateDoc_Some _ _ _ _ Hst). simpl.
        rewrite without_id, setBookedClients_same by done. by apply withShifts_shifts.
      * simpl. rewrite lookup_insert_eq. simpl.
        rewrite isFuture_setBookedClients, Hfut. simpl.
        erewrite updateDoc_Some by apply lookup_insert_eq. simpl.
        rewrite without_snoc by done. unfold setBookedClients. simpl.
        rewrite shift_eta, insert_insert_eq, Hback, withShifts_twice. apply withShifts_same.
    + unfold ClientDashboard.handleUnbookShift.
      rewrite findById_futureShifts, Hst. simpl. by rewrite Hfut.
Qed.

Lemma book_then_unbook_restores_witness :
  let s := mkShift "2025-03-01" "10:00" 2 "m1" ["c1"] 0 in
  let db := mkStore {[ "s1" := s ]} ∅ ∅ ∅ in
  (ShiftsManagement.handleRemoveClientFromShift
     (docs (shiftsColl (ShiftsManagement.handleBookClient
                          (docs (shiftsColl db)) "c2" "s1" db).1))
     "s1" "c2"
     (ShiftsManagement.handleBookClient (docs (shiftsColl db)) "c2" "s1" db).1).1
  = db.
Proof.
  intros s db.
  apply (book_then_unbook_restores (fun _ => None) 0 db "s1" "c2" s).
  - reflexivity.
  - apply (bool_decide_unpack _). by vm_compute.
Defined.

(** X10.  Creating a shift or recording a payment under an id the
    collection does not hold, and then deleting that id, leaves the store
    exactly as it was, whether the creation was accepted or rejected. *)
Theorem create_then_delete_restores (newId : string) (now : Z) (db : Store) :
  (shiftsColl db !! newId = None ->
   forall d t c m,
     (ShiftsManagement.confirmDeleteShift newId
        (ShiftsManagement.handleAddShift newId now d t c m db).1).1 = db)
  /\ (paymentsColl db !! newId = None ->
      forall client amt month year,
        (PaymentsList.confirmDeletePayment newId
           (Payments.handleAddPayment newId now client amt month year db).1).1 = db).
Proof.
  split.
  - intros Hfresh d t c m.
    unfold ShiftsManagement.handleAddShift, ShiftsManagement.confirmDeleteShift,
      addDoc, deleteDoc.
    destruct (_ || _); simpl.
    + rewrite delete_id by done. apply withShifts_same.
    + rewrite delete_insert_id, withShifts_twice by done. apply withShifts_same.
  - intros Hfresh client amt month year.
    unfold PaymentsList.confirmDeletePayment, deleteDoc.
    destruct (handleAddPayment_rejected_or_recorded newId now client amt month year db)
      as [-> | E]; cbn [fst].
    + rewrite delete_id by done. apply withPayments_same.
    + apply handleAddPayment_recorded in E as (a & _ & _ & _ & ->). simpl.
      rewrite delete_insert_id, withPayments_twice by done. apply withPayments_same.
Qed.

Lemma create_then_delete_restores_witness :
  let db := mkStore {[ "s1" := mkShift "2025-03-01" "10:00" 2 "m1" ["c1"] 0 ]} ∅ ∅ ∅ in
  (ShiftsManagement.confirmDeleteShift "s2"
     (ShiftsManagement.handleAddShift "s2" 9 "2025-04-01" "08:00" (Js.Num 10) "m1" db).1).1
  = db.
Proof.
  intros db.
  destruct (create_then_delete_restores "s2" 9 db) as [Hshift _].
  apply Hshift. reflexivity.
Defined.


(* ===================================================================== *)
(** ** Editing a shift *)

(** X11.  [handleUpdateShift] creates and removes no shift document (a
    shift deleted meanwhile is not brought back), leaves every other shift
    and every other collection as it was, and on the edited shift changes
    date, time, capacity and modality only: bookedClients and createdAt
    stay. *)
Theorem updateShift_keeps_bookings (cur : string * Shift) (d t : string)
    (c : Js.Value) (m : string) (db : Store) :
  let r := ShiftsManagement.handleUpdateShift (Some cur) d t c m db in
  (forall sid, shiftsColl r.1 !! sid = None <-> shiftsColl db !! sid = None)
  /\ (forall sid, sid ≠ cur.1 -> shiftsColl r.1 !! sid = shiftsColl db !! sid)
  /\ (forall s s', shiftsColl db !! cur.1 = Some s -> shiftsColl r.1 !! cur.1 = Some s' ->
        bookedClients s' = bookedClients s /\ createdAt s' = createdAt s
        /\ (r.2 = Some ShiftUpdated ->
            s' = mkShift d t (Js.Number c) m (bookedClients s) (createdAt s)))
  /\ (shiftsColl db !! cur.1 = None -> r.1 = db /\ r.2 ≠ Some ShiftUpdated)
  /\ clientsColl r.1 = clientsColl db
  /\ paymentsColl r.1 = paymentsColl db
  /\ modalitiesColl r.1 = modalitiesColl db.
Proof.
  intros r. subst r. unfold ShiftsManagement.handleUpdateShift, updateDoc.
  destruct (_ || _); simpl.
  { split_and!; try done. intros s s' -> [= <-]. by split_and!. }
  destruct (shiftsColl db !! cur.1) as [s0|] eqn:E; simpl.
  - split_and!; try done.
    + intros sid. destruct (decide (sid = cur.1)) as [->|Hne].
      * rewrite lookup_insert_eq, E. split; discriminate.
      * by rewrite lookup_insert_ne.
    + intros sid Hne. by rewrite lookup_insert_ne.
    + intros s s' [= <-]. rewrite lookup_insert_eq. by intros [= <-].
  - by split_and!.
Qed.

(* ===================================================================== *)
(** ** Bookings under the account id *)

(** X12.  A booking the client made through [handleBookShift] is stored
    under the account id.  Deleting a client document with another id
    (that of the client's own record) leaves that booking in the shift;
    the shifts table then shows it as an unknown client when no client
    document has the account id as its id. *)
Theorem deleteClient_keeps_account_booking (parseDate : string -> option Z)
    (now : Z) (db : Store) (shiftId userId clientToDelete : string) :
  userId ≠ clientToDelete ->
  let r1 := ClientDashboard.handleBookShift
              (SelfService.futureShifts parseDate now (docs (shiftsColl db)))
              userId shiftId db in
  r1.2 = Some SelfBooked ->
  let db2 := (ClientsManagement.confirmDeleteClient clientToDelete r1.1).1 in
  (exists s', shiftsColl db2 !! shiftId = Some s' /\ userId ∈ bookedClients s')
  /\ (clientsColl db !! userId = None ->
      ShiftsView.bookedClientName (docs (clientsColl db2)) userId
      = "Cliente desconocido").
Proof.
  intros Hne r1 Hok db2. subst r1 db2.
  destruct (confirmDeleteClient_result clientToDelete
              (ClientDashboard.handleBookShift
                 (SelfService.futureShifts parseDate now (docs (shiftsColl db)))
                 userId shiftId db).1) as (_ & Hc & _ & _ & Hs).
  revert Hok Hc Hs. unfold ClientDashboard.handleBookShift.
  rewrite findById_futureShifts.
  destruct (shiftsColl db !! shiftId) as [s|] eqn:E; simpl; [|done].
  destruct (isFuture parseDate now (shiftId, s)); simpl; [|done].
  destruct (includes (bookedClients s) userId); [done|].
  destruct (Qle_bool _ _); [done|].
  rewrite (updateDoc_Some _ _ _ _ E). simpl. intros _ Hc Hs. split.
  - eexists. split; [rewrite Hs, lookup_insert_eq; done|]. simpl.
    unfold without. apply list_elem_of_filter. split; [done|].
    apply elem_of_app. right. left.
  - intros Hnone. unfold ShiftsView.bookedClientName.
    rewrite findById_docs, Hc.
    destruct (decide (userId = clientToDelete)); [done|].
    by rewrite lookup_delete_ne, Hnone.
Qed.

Lemma deleteClient_keeps_account_booking_witness :
  let parse := fun _ : string => Some 100%Z in
  let db := mkStore
      {[ "s1" := mkShift "2025-03-01" "10:00" 5 "m1" ["c1"] 0 ]}
      {[ "c1" := mkClient "Ana" "" "" (Some "u7") None ]} ∅ ∅ in
  let booked := (ClientDashboard.handleBookShift
                   (SelfService.futureShifts parse 50 (docs (shiftsColl db)))
                   "u7" "s1" db).1 in
  shiftsColl (ClientsManagement.confirmDeleteClient "c1" booked).1 !! "s1"
  = Some (mkShift "2025-03-01" "10:00" 5 "m1" ["u7"] 0).
Proof.
  intros parse db booked.
  destruct (deleteClient_keeps_account_booking parse 50 db "s1" "u7" "c1")
    as [(s' & Hs' & Hin) _]; [done | reflexivity |].
  fold booked in Hs'. rewrite Hs'.
  assert (Hv : shiftsColl (ClientsManagement.confirmDeleteClient "c1" booked).1 !! "s1"
               = Some (mkShift "2025-03-01" "10:00" 5 "m1" ["u7"] 0)) by reflexivity.
  by rewrite Hs' in Hv.
Defined.

(* ===================================================================== *)
(** ** Modalities *)

Lemma validPrice_Some (n : string) (p : Js.Value) (q : Q) :
  ModalitiesForm.validPrice n p = Some q ->
  Js.parseFloat p = Some q /\ (0 < q)%Q /\ JsString.trim n ≠ "".
Proof.
  unfold ModalitiesForm.validPrice.
  destruct (Js.blank (JsString.trim n) || negb (Js.truthy p)) eqn:E; [done|].
  apply orb_false_iff in E as [Hn _]. apply blank_false in Hn.
  destruct (Js.parseFloat p) as [a|]; [|done].
  destruct (Qle_bool a 0) eqn:L; [done|]. intros [= <-].
  apply Qle_bool_false in L. done.
Qed.

Lemma validPrice_None (n : string) (p : Js.Value) :
  JsString.trim n = "" \/ Js.truthy p = false
  \/ (forall q, Js.parseFloat p = Some q -> (q <= 0)%Q) ->
  ModalitiesForm.validPrice n p = None.
Proof.
  unfold ModalitiesForm.validPrice. intros H.
  destruct (Js.blank (JsString.trim n) || negb (Js.truthy p)) eqn:E; [done|].
  apply orb_false_iff in E as [Hn Ht].
  apply blank_false in Hn. apply negb_false_iff in Ht.
  destruct (Js.parseFloat p) as [a|] eqn:P; [|done].
  destruct (Qle_bool a 0) eqn:L; [done|]. apply Qle_bool_false in L.
  destruct H as [H | [H | H]]; [done | congruence |].
  specialize (H a eq_refl). lra.
Qed.

(** X13.  Adding, editing and deleting modalities keep every stored
    modality with a price above 0 and a name that is not blank; and the
    two forms reject a blank name, an empty price and a price that is not
    above 0 without writing. *)
Theorem modalities_stay_valid (db : Store) :
  validModalities db ->
  (forall newId n p d, validModalities (ModalitiesForm.handleAddModality newId n p d db).1)
  /\ (forall cur n p d, validModalities (ModalitiesForm.handleUpdateModality cur n p d db).1)
  /\ (forall id, validModalities (Modalities.confirmDeleteModality id db).1)
  /\ (forall newId cur n p d,
        JsString.trim n = "" \/ Js.truthy p = false
        \/ (forall q, Js.parseFloat p = Some q -> (q <= 0)%Q) ->
        ModalitiesForm.handleAddModality newId n p d db = (db, ModalityInvalid)
        /\ ModalitiesForm.handleUpdateModality cur n p d db = (db, ModalityInvalid)).
Proof.
  intros Hdb. split_and!.
  - intros newId n p d id m. unfold ModalitiesForm.handleAddModality, addDoc.
    destruct (ModalitiesForm.validPrice n p) as [q|] eqn:V; simpl; [|apply Hdb].
    apply validPrice_Some in V as (_ & Hq & Hn).
    destruct (decide (id = newId)) as [->|Hne].
    + rewrite lookup_insert_eq. by intros [= <-].
    + rewrite lookup_insert_ne by done. apply Hdb.
  - intros cur n p d id m. unfold ModalitiesForm.handleUpdateModality, updateDoc.
    destruct cur as [cur|]; [|apply Hdb].
    destruct (ModalitiesForm.validPrice n p) as [q|] eqn:V; simpl; [|apply Hdb].
    apply validPrice_Some in V as (_ & Hq & Hn).
    destruct (modalitiesColl db !! cur.1) eqn:E; simpl; [|apply Hdb].
    destruct (decide (id = cur.1)) as [->|Hne].
    + rewrite lookup_insert_eq. by intros [= <-].
    + rewrite lookup_insert_ne by done. apply Hdb.
  - intros id id' m. unfold Modalities.confirmDeleteModality, deleteDoc.
    destruct (queryWhere _ _); simpl; [|apply Hdb].
    intros [_ H]%lookup_delete_Some. by apply (Hdb id').
  - intros newId cur n p d H.
    unfold ModalitiesForm.handleAddModality, ModalitiesForm.handleUpdateModality.
    rewrite (validPrice_None _ _ H). by destruct cur.
Qed.

Lemma modalities_stay_valid_witness :
  let db := mkStore ∅ ∅ ∅ {[ "m1" := mkModality "Yoga" 30 "" ]} in
  validModalities
    (ModalitiesForm.handleAddModality "m2" " Pilates" (Js.Text (Some 40%Q)) "" db).1
  /\ ModalitiesForm.handleAddModality "m2" "   " (Js.Text (Some 40%Q)) "" db
     = (db, ModalityInvalid).
Proof.
  intros db.
  destruct (modalities_stay_valid db) as (Hadd & _ & _ & Hrej).
  - intros id m Hm. unfold db in Hm. simpl in Hm.
    apply lookup_singleton_Some in Hm as [_ <-]. split; [reflexivity|]. by vm_compute.
  - split; [apply Hadd|].
    apply (Hrej "m2" None "   " (Js.Text (Some 40%Q)) ""). by left.
Defined.

Lemma getModalityName_stored (modalities : gmap string Modality) (id : string) :
  ShiftsView.getModalityName (docs modalities) id
  = match modalities !! id with
    | Some m => modalityName m
    | None => "Desconocida"
    end.
Proof.
  unfold ShiftsView.getModalityName. rewrite findById_docs.
  by destruct (modalities !! id).
Qed.

(** X14.  If every shift's modality is a stored modality, it stays so
    under deleting a modality (which is refused while a shift uses it),
    adding and editing modalities, and deleting shifts; and then the name
    shown for a shift's modality is the stored name, never the
    "Desconocida" of a missing one. *)
Theorem modalities_stay_resolved (db : Store) :
  modalitiesResolve db ->
  (forall id, modalitiesResolve (Modalities.confirmDeleteModality id db).1)
  /\ (forall newId n p d,
        modalitiesResolve (ModalitiesForm.handleAddModality newId n p d db).1)
  /\ (forall cur n p d,
        modalitiesResolve (ModalitiesForm.handleUpdateModality cur n p d db).1)
  /\ (forall sid, modalitiesResolve (ShiftsManagement.confirmDeleteShift sid db).1)
  /\ (forall sid s, shiftsColl db !! sid = Some s ->
        exists mo, modalitiesColl db !! modalityId s = Some mo
          /\ ShiftsView.getModalityName (docs (modalitiesColl db)) (modalityId s)
             = modalityName mo).
Proof.
  intros Hdb. split_and!.
  - intros id sid s. unfold Modalities.confirmDeleteModality.
    destruct (queryWhere _ _) as [|x l] eqn:Q; simpl; [|apply Hdb].
    intros Hs. unfold deleteDoc. rewrite lookup_delete_ne; [by apply (Hdb sid)|].
    intros ->.
    assert (Hin : (sid, s) ∈ queryWhere
              (fun s0 => bool_decide (modalityId s0 = modalityId s)) (shiftsColl db)).
    { apply elem_of_queryWhere. simpl. split; [done|]. by apply bool_decide_eq_true. }
    rewrite Q in Hin. by apply elem_of_nil in Hin.
  - intros newId n p d sid s. unfold ModalitiesForm.handleAddModality, addDoc.
    destruct (ModalitiesForm.validPrice n p); simpl; [|apply Hdb].
    intros Hs. destruct (decide (modalityId s = newId)) as [->|Hne].
    + rewrite lookup_insert_eq. by eexists.
    + rewrite lookup_insert_ne by done. by apply (Hdb sid).
  - intros cur n p d sid s. unfold ModalitiesForm.handleUpdateModality, updateDoc.
    destruct cur as [cur|]; [|apply Hdb].
    destruct (ModalitiesForm.validPrice n p); simpl; [|apply Hdb].
    destruct (modalitiesColl db !! cur.1) eqn:E; simpl; [|apply Hdb].
    intros Hs. destruct (decide (modalityId s = cur.1)) as [->|Hne].
    + rewrite lookup_insert_eq. by eexists.
    + rewrite lookup_insert_ne by done. by apply (Hdb sid).
  - intros sid sid' s. simpl. unfold deleteDoc.
    intros [_ H]%lookup_delete_Some. by apply (Hdb sid').
  - intros sid s Hs. destruct (Hdb sid s Hs) as [mo Hmo].
    exists mo. split; [done|]. by rewrite getModalityName_stored, Hmo.
Qed.

Lemma modalities_stay_resolved_witness :
  let db := mkStore {[ "s1" := mkShift "2025-03-01" "10:00" 5 "m1" [] 0 ]} ∅ ∅
                    {[ "m1" := mkModality "Yoga" 30 "" ]} in
  ShiftsView.getModalityName
    (docs (modalitiesColl (Modalities.confirmDeleteModality "m1" db).1)) "m1"
  = "Yoga".
Proof.
  intros db.
  assert (Hres : modalitiesResolve db).
  { intros sid s Hs. unfold db in Hs. simpl in Hs.
    apply lookup_singleton_Some in Hs as [_ <-]. by eexists. }
  destruct (modalities_stay_resolved db Hres) as (Hdel & _).
  specialize (Hdel "m1" "s1" (mkShift "2025-03-01" "10:00" 5 "m1" [] 0) eq_refl).
  destruct Hdel as [mo Hmo]. simpl in Hmo.
  rewrite getModalityName_stored, Hmo.
  assert (Hv : modalitiesColl (Modalities.confirmDeleteModality "m1" db).1 !! "m1"
               = Some (mkModality "Yoga" 30 "")) by reflexivity.
  rewrite Hmo in Hv. by injection Hv as ->.
Defined.


(* ===================================================================== *)
(** ** Clients and their modality *)

Lemma handleUpdateClient_modality cur n p e a db id c' :
  clientsColl (ClientsForm.handleUpdateClient cur n p e a db).1 !! id = Some c' ->
  exists c, clientsColl db !! id = Some c
    /\ currentModalityId c' = currentModalityId c.
Proof.
  unfold ClientsForm.handleUpdateClient, updateDoc.
  destruct cur as [cur|]; [|by eauto].
  destruct (Js.blank n); [by eauto|].
  destruct (clientsColl db !! cur.1) as [c0|] eqn:E; simpl; [|by eauto].
  destruct (decide (id = cur.1)) as [->|Hne].
  - rewrite lookup_insert_eq. intros [= <-]. by exists c0.
  - rewrite lookup_insert_ne by done. by eauto.
Qed.

(** X15.  When the client's [handleChangeModality] succeeds, the client's
    document has the chosen modality, its other fields and all other
    clients are unchanged, and a later edit of any client by the
    administrator ([handleUpdateClient]) keeps the chosen modality. *)
Theorem chosen_modality_survives_edit (profile : string * Client) (admin : string)
    (selectedNewModality : string) (db : Store)
    (cur : option (string * Client)) (n p e a : string) :
  let r1 := SelfService.handleChangeModality (Some profile) (Some admin)
              selectedNewModality db in
  r1.2 = ModalityChanged ->
  (exists c, clientsColl db !! profile.1 = Some c
     /\ clientsColl r1.1.1 !! profile.1
        = Some (mkClient (name c) (phone c) (email c) (associatedUserUid c)
                         (Some selectedNewModality)))
  /\ (forall id, id ≠ profile.1 -> clientsColl r1.1.1 !! id = clientsColl db !! id)
  /\ (exists c', clientsColl (ClientsForm.handleUpdateClient cur n p e a r1.1.1).1
                   !! profile.1 = Some c'
        /\ currentModalityId c' = Some selectedNewModality).
Proof.
  intros r1. subst r1. unfold SelfService.handleChangeModality, updateDoc.
  destruct (Js.blank selectedNewModality); [done|].
  destruct (clientsColl db !! profile.1) as [c|] eqn:E; [|done].
  simpl. intros _. split_and!.
  - exists c. split; [done|]. by rewrite lookup_insert_eq.
  - intros id Hne. by rewrite lookup_insert_ne.
  - set (c1 := setCurrentModality selectedNewModality c).
    set (db1 := withClients db (<[profile.1 := c1]> (clientsColl db))).
    assert (Hdoc : clientsColl db1 !! profile.1 = Some c1) by apply lookup_insert_eq.
    clearbody db1.
    unfold ClientsForm.handleUpdateClient, updateDoc.
    destruct cur as [cur|]; [|by simpl; eauto].
    destruct (Js.blank n); [by simpl; eauto|].
    destruct (clientsColl db1 !! cur.1) as [c2|] eqn:E2; simpl; [|by eauto].
    destruct (decide (profile.1 = cur.1)) as [Heq|Hne].
    + rewrite <- Heq in *. rewrite lookup_insert_eq.
      assert (c2 = c1) as -> by congruence. by eauto.
    + rewrite lookup_insert_ne by done. by eauto.
Qed.

Lemma chosen_modality_survives_edit_witness :
  let ana := mkClient "Ana" "555" "" (Some "u7") None in
  let db := mkStore ∅ {[ "c1" := ana ]} ∅ ∅ in
  let changed := (SelfService.handleChangeModality (Some ("c1", ana)) (Some "admin1")
                    "m2" db).1.1 in
  clientsColl
    (ClientsForm.handleUpdateClient (Some ("c1", ana)) "Ana Maria" "556" "a@x" "u7"
       changed).1 !! "c1"
  = Some (mkClient "Ana Maria" "556" "a@x" (Some "u7") (Some "m2")).
Proof.
  intros ana db changed.
  destruct (chosen_modality_survives_edit ("c1", ana) "admin1" "m2" db
              (Some ("c1", ana)) "Ana Maria" "556" "a@x" "u7")
    as (_ & _ & c' & Hc' & Hm); [reflexivity|].
  cbn [fst] in Hc'. fold changed in Hc'. rewrite Hc'.
  assert (Hv : clientsColl
     (ClientsForm.handleUpdateClient (Some ("c1", ana)) "Ana Maria" "556" "a@x" "u7"
        changed).1 !! "c1"
     = Some (mkClient "Ana Maria" "556" "a@x" (Some "u7") (Some "m2"))) by reflexivity.
  by rewrite Hc' in Hv.
Defined.

(* ===================================================================== *)
(** ** The resolver without the uniqueness assumption *)

Section ResolverAny.
Variables (tenant : string -> Store) (userId : string).

Lemma scanUsers_sound (userDocs : list (string * User)) (x : string * Client) :
  ClientDashboard.foundClientProfile
    (ClientDashboard.scanUsers tenant userId userDocs) = Some x ->
  exists d, d ∈ userDocs /\ role d.2 = "admin"
    /\ ClientDashboard.foundAdminId
         (ClientDashboard.scanUsers tenant userId userDocs) = Some d.1
    /\ linkedTo userId (clientsColl (tenant d.1)) x.
Proof.
  induction userDocs as [|d l IH]; simpl; [done|].
  destruct (bool_decide (role d.2 = "admin")) eqn:E.
  - apply bool_decide_eq_true in E.
    destruct (queryWhere _ (clientsColl (tenant d.1))) as [|y m] eqn:M; simpl.
    + intros (d' & Hd' & H)%IH. exists d'. split; [by right | done].
    + intros [= <-]. exists d. split; [left|]. split; [done|]. split; [done|].
      apply elem_of_matching. rewrite M. left.
  - intros (d' & Hd' & H)%IH. exists d'. split; [by right | done].
Qed.

Lemma scanUsers_complete (userDocs : list (string * User)) :
  ClientDashboard.foundClientProfile
    (ClientDashboard.scanUsers tenant userId userDocs) = None ->
  forall d, d ∈ userDocs -> role d.2 = "admin" ->
    forall x, ~ linkedTo userId (clientsColl (tenant d.1)) x.
Proof.
  induction userDocs as [|d l IH]; simpl; [by intros _ d' ?%elem_of_nil|].
  destruct (bool_decide (role d.2 = "admin")) eqn:E.
  - destruct (queryWhere _ (clientsColl (tenant d.1))) as [|y m] eqn:M; simpl; [|done].
    intros Hnone d' [->|Hd']%elem_of_cons Hrole x Hx.
    + apply elem_of_matching in Hx. rewrite M in Hx. by apply elem_of_nil in Hx.
    + by apply (IH Hnone d' Hd' Hrole x).
  - apply bool_decide_eq_false in E.
    intros Hnone d' [->|Hd']%elem_of_cons Hrole x Hx; [done|].
    by apply (IH Hnone d' Hd' Hrole x).
Qed.

End ResolverAny.

Lemma resolver_sound_and_complete_aux (users : gmap string User)
    (tenant : string -> Store) (userId : string) :
  let r := ClientDashboard.fetchClientProfile users tenant userId in
  (forall x, r.1.1.1 = Some x -> exists t, r.1.1.2 = Some t /\ r.1.2 = None)
  /\ (r.1.1.1 = None ->
      forall t u, users !! t = Some u -> role u = "admin" ->
        forall x, ~ linkedTo userId (clientsColl (tenant t)) x).
Proof.
  intros r. subst r. unfold ClientDashboard.fetchClientProfile.
  destruct (ClientDashboard.foundClientProfile
              (ClientDashboard.scanUsers tenant userId (docs users))) as [x|] eqn:F;
    simpl.
  - apply scanUsers_sound in F as (d & _ & _ & Hadmin & _).
    split; [|done]. intros x' _. by exists d.1.
  - split; [done|]. intros _ t u Hu Hrole x.
    apply (scanUsers_complete tenant userId _ F (t, u)); [|done].
    by apply elem_of_docs.
Qed.

(** X16.  Whatever the links are, a profile [fetchClientProfile] returns
    is a client linked to the account in the directory of the returned
    id, that id is an administrator's, and no notice is shown; and the
    not-associated notice is shown exactly when no administrator's
    directory has a client linked to the account. *)
Theorem resolver_sound_and_complete (users : gmap string User)
    (tenant : string -> Store) (userId : string) :
  let r := ClientDashboard.fetchClientProfile users tenant userId in
  (forall x, r.1.1.1 = Some x ->
     exists t u, r.1.1.2 = Some t /\ users !! t = Some u /\ role u = "admin"
       /\ linkedTo userId (clientsColl (tenant t)) x /\ r.1.2 = None)
  /\ (r.1.2 = Some ProfileNotAssociated <->
      forall t u, users !! t = Some u -> role u = "admin" ->
        forall x, ~ linkedTo userId (clientsColl (tenant t)) x)
  /\ (r.1.2 = Some ProfileNotAssociated <-> r.1.1.1 = None).
Proof.
  intros r. subst r. unfold ClientDashboard.fetchClientProfile.
  destruct (ClientDashboard.foundClientProfile
              (ClientDashboard.scanUsers tenant userId (docs users))) as [x|] eqn:F;
    simpl.
  - apply scanUsers_sound in F as (d & Hd & Hrole & Hadmin & Hlink).
    apply elem_of_docs in Hd. split_and!.
    + intros x' [= <-]. by exists d.1, d.2.
    + split; [done|]. intros Hno. exfalso. by apply (Hno d.1 d.2 Hd Hrole x).
    + split; done.
  - split_and!; [done| |done].
    split; [|done]. intros _ t u Hu Hrole x.
    apply (scanUsers_complete tenant userId _ F (t, u)); [|done].
    by apply elem_of_docs.
Qed.

(** X17.  After the administrator adds a client with a name and a linked
    account id, the resolver run for that account finds a profile: the
    not-associated notice cannot appear. *)
Theorem added_client_is_resolved (users : gmap string User)
    (tenant : string -> Store) (t : string) (u : User)
    (newId n p e uid : string) :
  users !! t = Some u -> role u = "admin" -> n ≠ "" -> uid ≠ "" ->
  let added := ClientsForm.handleAddClient newId n p e uid (tenant t) in
  let tenant' := fun a => if bool_decide (a = t) then added.1 else tenant a in
  added.2 = ClientAdded
  /\ clientsColl added.1 !! newId = Some (mkClient n p e (Some uid) None)
  /\ exists x admin,
       (ClientDashboard.fetchClientProfile users tenant' uid).1
       = (Some x, Some admin, None).
Proof.
  intros Hu Hrole Hn Huid added tenant'.
  assert (Hadd : added = (withClients (tenant t)
             (<[newId := mkClient n p e (Some uid) None]> (clientsColl (tenant t))),
           ClientAdded)).
  { subst added. unfold ClientsForm.handleAddClient, orNull, addDoc.
    apply blank_false in Hn, Huid. by rewrite Hn, Huid. }
  split; [by rewrite Hadd|].
  split; [rewrite Hadd; apply lookup_insert_eq|].
  destruct (resolver_sound_and_complete_aux users tenant' uid) as [Hsome Hnone].
  destruct (ClientDashboard.fetchClientProfile users tenant' uid)
    as [[[prof adm] notice] q] eqn:F. simpl in *.
  destruct prof as [x|].
  - destruct (Hsome x eq_refl) as (t' & -> & ->). by exists x, t'.
  - exfalso. apply (Hnone eq_refl t u Hu Hrole (newId, mkClient n p e (Some uid) None)).
    split; [|done]. unfold tenant'. rewrite bool_decide_eq_true_2 by done.
    rewrite Hadd. apply lookup_insert_eq.
Qed.


Lemma added_client_is_resolved_witness :
  let users : gmap string User :=
    {[ "admin1" := mkUser "a1@gym" "admin"; "u7" := mkUser "ana@mail" "client" ]} in
  let tenant := fun _ : string => emptyStore in
  let added := ClientsForm.handleAddClient "c1" "Ana" "" "" "u7" (tenant "admin1") in
  let tenant' := fun a => if bool_decide (a = "admin1") then added.1 else tenant a in
  (ClientDashboard.fetchClientProfile users tenant' "u7").1
  = (Some ("c1", mkClient "Ana" "" "" (Some "u7") None), Some "admin1", None).
Proof.
  intros users tenant added tenant'.
  destruct (added_client_is_resolved users tenant "admin1" (mkUser "a1@gym" "admin")
              "c1" "Ana" "" "" "u7") as (_ & _ & x & admin & Hr);
    [reflexivity | reflexivity | done | done |].
  fold added in Hr. fold tenant' in Hr. rewrite Hr.
  assert (Hv : (ClientDashboard.fetchClientProfile users tenant' "u7").1
     = (Some ("c1", mkClient "Ana" "" "" (Some "u7") None), Some "admin1", None))
    by (vm_compute; reflexivity).
  by rewrite Hr in Hv.
Defined.

(* ===================================================================== *)
(** ** Accounts and roles *)

Lemma lookup_single_Some {A} (i j : string) (x y : A) :
  (<[i := x]> (∅ : gmap string A)) !! j = Some y -> j = i /\ x = y.
Proof.
  intros [[<- <-]|[_ H]]%lookup_insert_Some; [done|].
  by rewrite lookup_empty in H.
Qed.

Lemma roleToAssign_admin (users : gmap string User) :
  roleToAssign (docs users) = "admin" <-> users = ∅.
Proof.
  unfold docs. destruct (map_to_list users) eqn:E; simpl.
  - apply map_to_list_empty_iff in E. by split.
  - split; [done|]. intros ->. by rewrite map_to_list_empty in E.
Qed.

Lemma roleToAssign_client (users : gmap string User) :
  users ≠ ∅ -> roleToAssign (docs users) = "client".
Proof.
  intros Hne. unfold docs. destruct (map_to_list users) eqn:E; simpl; [|done].
  by apply map_to_list_empty_iff in E.
Qed.

(** The registry after [createAccount]. *)
Lemma createAccount_users (uid e : string) (reg : Registry) :
  usersColl (createAccount uid e reg).1
  = <[uid := mkUser e (roleToAssign (docs (usersColl reg)))]> (usersColl reg)
  /\ (createAccount uid e reg).2 = roleToAssign (docs (usersColl reg)).
Proof. unfold createAccount. by destruct (bool_decide _). Qed.

Lemma createAccount_one_admin (uid e : string) (reg : Registry) :
  (forall a b, isAdmin reg a -> isAdmin reg b -> a = b) ->
  forall a b, isAdmin (createAccount uid e reg).1 a ->
              isAdmin (createAccount uid e reg).1 b -> a = b.
Proof.
  intros Hone a b. unfold isAdmin.
  destruct (createAccount_users uid e reg) as [-> _].
  destruct (decide (usersColl reg = ∅)) as [Hempty|Hne].
  - rewrite Hempty.
    intros (ua & [-> _]%lookup_single_Some & _)
           (ub & [-> _]%lookup_single_Some & _). done.
  - rewrite (roleToAssign_client _ Hne).
    intros (ua & Ha & Hra) (ub & Hb & Hrb).
    apply lookup_insert_Some in Ha as [[_ <-]|[_ Ha]]; [done|].
    apply lookup_insert_Some in Hb as [[_ <-]|[_ Hb]]; [done|].
    apply Hone; by eexists.
Qed.

Lemma authStep_users (ev : AuthEvent) (s : Registry * App.Session) :
  (authStep ev s).1 = s.1
  \/ (exists uid e, usersColl s.1 !! uid = None /\ isAuthStateChanged ev
        /\ (authStep ev s).1 = (createAccount uid e s.1).1)
  \/ (exists uid e, ev = HandleAuth true (inr (uid, e))
        /\ (authStep ev s).1 = (createAccount uid e s.1).1).
Proof.
  destruct ev as [[u|]|reg [code|user]]; simpl; try by left.
  - destruct (usersColl s.1 !! u.1) eqn:E; simpl; [by left|].
    right. left. by exists u.1, u.2.
  - destruct reg; simpl; [|by left].
    right. right. exists user.1, user.2. by destruct user.
Qed.

(** X18.  From a registry with at most one administrator (the empty one
    in particular), every sequence of sign-ins, sign-outs, registrations
    and failed attempts leads to a registry with at most one
    administrator. *)
Theorem registry_one_admin (evs : list AuthEvent) (reg : Registry)
    (st : App.Session) :
  (forall a b, isAdmin reg a -> isAdmin reg b -> a = b) ->
  forall a b, isAdmin (authRun evs (reg, st)).1 a ->
              isAdmin (authRun evs (reg, st)).1 b -> a = b.
Proof.
  unfold authRun. revert reg st.
  induction evs as [|ev evs IH]; intros reg st Hone; [done|]. simpl.
  destruct (authStep ev (reg, st)) as [reg' st'] eqn:E.
  apply IH.
  destruct (authStep_users ev (reg, st)) as [H | [(uid & e & _ & _ & H) | (uid & e & _ & H)]];
    rewrite E in H; simpl in H; subst reg'; [done| |];
    by apply createAccount_one_admin.
Qed.

Lemma registry_one_admin_witness :
  let evs := [ AuthStateChanged (Some ("u1", "a@gym"));
               AuthStateChanged None;
               HandleAuth true (inr ("u2", "b@mail"));
               AuthStateChanged (Some ("u2", "b@mail"));
               HandleAuth false (inl "auth/wrong-password") ] in
  usersColl (authRun evs (emptyRegistry, App.signedOut)).1
  = {[ "u1" := mkUser "a@gym" "admin"; "u2" := mkUser "b@mail" "client" ]}
  /\ forall a, isAdmin (authRun evs (emptyRegistry, App.signedOut)).1 a -> a = "u1".
Proof.
  intros evs. split; [reflexivity|].
  intros a Ha.
  apply (registry_one_admin evs emptyRegistry App.signedOut); [|done|].
  - intros x y (ux & Hx & _). simpl in Hx. by rewrite lookup_empty in Hx.
  - exists (mkUser "a@gym" "admin"). split; reflexivity.
Defined.

Lemma createAccount_empty (uid e : string) :
  createAccount uid e emptyRegistry
  = (mkRegistry (<[uid := mkUser e "admin"]> ∅) (<[uid := ""]> ∅), "admin").
Proof.
  unfold createAccount, emptyRegistry, docs. simpl.
  by rewrite map_to_list_empty.
Qed.

Lemma sign_in_empty (uid e : string) (st : App.Session) :
  App.onAuthStateChanged (Some (uid, e)) emptyRegistry st
  = (mkRegistry (<[uid := mkUser e "admin"]> ∅) (<[uid := ""]> ∅),
     App.mkSession (Some uid) (Some "admin") true (App.brandImageUrl st)).
Proof.
  unfold App.onAuthStateChanged. simpl.
  by rewrite lookup_empty, createAccount_empty.
Qed.

Lemma authState_keeps_users (ev : AuthEvent) (s : Registry * App.Session)
    (uid : string) (d : User) :
  isAuthStateChanged ev -> usersColl s.1 !! uid = Some d ->
  usersColl (authStep ev s).1 !! uid = Some d
  /\ (roleToAssign (docs (usersColl s.1)) = "client" ->
      forall v dv, usersColl (authStep ev s).1 !! v = Some dv ->
        usersColl s.1 !! v = None -> role dv = "client").
Proof.
  intros Hev Hd.
  destruct (authStep_users ev s) as [-> | [(u & e & Hnew & _ & ->) | (u & e & -> & _)]];
    [|destruct (createAccount_users u e s.1) as [-> _]|done].
  - split; [done|]. intros _ v dv Hv Hnone. congruence.
  - split.
    + rewrite lookup_insert_ne; [done|]. intros ->. congruence.
    + intros -> v dv Hv Hnone.
      apply lookup_insert_Some in Hv as [[_ <-]|[_ Hv]]; [done|congruence].
Qed.

(** X19.  Under auth-state events alone an account's document never
    changes once it exists; so from an empty registry the first account
    to sign in is the administrator for good and every account created
    later is a client. *)
Theorem first_sign_in_is_admin (uid e : string) (rest : list AuthEvent)
    (st : App.Session) :
  Forall isAuthStateChanged rest ->
  let reg := (authRun (AuthStateChanged (Some (uid, e)) :: rest)
                (emptyRegistry, st)).1 in
  usersColl reg !! uid = Some (mkUser e "admin")
  /\ (forall v d, usersColl reg !! v = Some d -> v ≠ uid -> role d = "client").
Proof.
  intros Hrest reg. subst reg. unfold authRun.
  cbn [foldl authStep fst snd]. rewrite sign_in_empty.
  set (s0 := (mkRegistry (<[uid := mkUser e "admin"]> ∅) (<[uid := ""]> ∅),
              App.mkSession (Some uid) (Some "admin") true (App.brandImageUrl st))).
  assert (Hinv : usersColl s0.1 !! uid = Some (mkUser e "admin")
            /\ forall v d, usersColl s0.1 !! v = Some d -> v ≠ uid -> role d = "client").
  { split; [apply lookup_insert_eq|]. intros v d Hv Hne. simpl in Hv.
    by rewrite lookup_insert_ne, lookup_empty in Hv. }
  clearbody s0. revert s0 Hinv.
  induction Hrest as [|ev rest Hev _ IH]; intros s0 [Hu Hothers]; [by split|]. simpl.
  apply IH.
  destruct (authState_keeps_users ev s0 uid _ Hev Hu) as [Hkeep Hnew].
  split; [done|]. intros v d Hv Hne.
  destruct (usersColl s0.1 !! v) as [d0|] eqn:E0.
  - destruct (authState_keeps_users ev s0 v d0 Hev E0) as [Hv' _].
    assert (d = d0) as -> by congruence. by apply (Hothers v).
  - apply (Hnew (roleToAssign_client _ ltac:(intros Hem; by rewrite Hem in Hu)) v d Hv E0).
Qed.

Lemma first_sign_in_is_admin_witness :
  let reg := (authRun [ AuthStateChanged (Some ("u1", "a@gym"));
                        AuthStateChanged None;
                        AuthStateChanged (Some ("u2", "b@mail"));
                        AuthStateChanged (Some ("u1", "a@gym")) ]
                (emptyRegistry, App.signedOut)).1 in
  usersColl reg !! "u1" = Some (mkUser "a@gym" "admin")
  /\ usersColl reg !! "u2" = Some (mkUser "b@mail" "client").
Proof.
  intros reg.
  destruct (first_sign_in_is_admin "u1" "a@gym"
              [ AuthStateChanged None;
                AuthStateChanged (Some ("u2", "b@mail"));
                AuthStateChanged (Some ("u1", "a@gym")) ] App.signedOut)
    as [Hadmin Hothers].
  - repeat constructor.
  - split; [exact Hadmin|]. reflexivity.
Defined.

(** X20.  The registration in [handleAuth] writes the user document even
    when it already exists: if the auth-state callback has created the
    account first, the registration stores it with the role client.  For
    the first account of an empty registry this order leaves no
    administrator at all, while the registration followed by the callback
    leaves the account as administrator. *)
Theorem registration_after_sign_in_demotes (uid e : string) (st : App.Session) :
  (forall reg, is_Some (usersColl reg !! uid) ->
     usersColl (AuthScreen.handleAuth true (inr (uid, e)) reg).1 !! uid
     = Some (mkUser e "client"))
  /\ (let reg := (authRun [ AuthStateChanged (Some (uid, e));
                            HandleAuth true (inr (uid, e)) ]
                    (emptyRegistry, st)).1 in
      usersColl reg !! uid = Some (mkUser e "client")
      /\ forall a, ~ isAdmin reg a)
  /\ (let reg := (authRun [ HandleAuth true (inr (uid, e));
                            AuthStateChanged (Some (uid, e)) ]
                    (emptyRegistry, st)).1 in
      usersColl reg !! uid = Some (mkUser e "admin")).
Proof.
  split_and!.
  - intros reg [d Hd]. simpl.
    destruct (createAccount_users uid e reg) as [-> _].
    rewrite roleToAssign_client; [apply lookup_insert_eq|].
    intros Hem. by rewrite Hem in Hd.
  - unfold authRun. cbn [foldl authStep fst snd]. rewrite sign_in_empty.
    cbn [AuthScreen.handleAuth fst snd].
    destruct (createAccount_users uid e
                (mkRegistry (<[uid := mkUser e "admin"]> ∅) (<[uid := ""]> ∅)))
      as [Hus _].
    rewrite roleToAssign_client in Hus
      by (simpl; intros Hem; apply (f_equal (fun m => m !! uid)) in Hem;
          by rewrite lookup_insert_eq, lookup_empty in Hem).
    simpl in Hus. rewrite insert_insert_eq in Hus.
    split.
    + rewrite Hus. apply lookup_insert_eq.
    + intros a (u & Hu & Hr). rewrite Hus in Hu.
      apply lookup_single_Some in Hu as [_ <-]. done.
  - unfold authRun. cbn [foldl authStep AuthScreen.handleAuth fst snd].
    rewrite createAccount_empty. unfold App.onAuthStateChanged. simpl.
    rewrite lookup_insert_eq. simpl. apply lookup_insert_eq.
Qed.

(** X21.  An image saved by [handleSaveBrandImage] is what the session of
    an administrator shows after signing out and in again; a client's
    session never loads it. *)
Theorem brandImage_round_trip (reg : Registry) (st : App.Session)
    (uid e url : string) (d : User) :
  usersColl reg !! uid = Some d ->
  let saved := BrandSettings.handleSaveBrandImage uid url reg st in
  let back := authRun [ AuthStateChanged None; AuthStateChanged (Some (uid, e)) ]
                (saved.1.1, saved.1.2) in
  App.brandImageUrl saved.1.2 = url
  /\ usersColl back.1 = usersColl reg
  /\ App.userRole back.2 = Some (role d)
  /\ (role d = "admin" -> App.brandImageUrl back.2 = url)
  /\ (role d ≠ "admin" -> App.brandImageUrl back.2 = "").
Proof.
  intros Hd saved back. subst saved back. unfold authRun. simpl.
  rewrite Hd. simpl. split_and!; try done.
  - intros Hr. rewrite bool_decide_eq_true_2 by done. by rewrite lookup_insert_eq.
  - intros Hr. by rewrite bool_decide_eq_false_2.
Qed.

Lemma brandImage_round_trip_witness :
  let reg := mkRegistry {[ "u1" := mkUser "a@gym" "admin" ]} {[ "u1" := "" ]} in
  let saved := BrandSettings.handleSaveBrandImage "u1" "https://x/logo.png" reg
                 App.signedOut in
  App.brandImageUrl
    (authRun [ AuthStateChanged None; AuthStateChanged (Some ("u1", "a@gym")) ]
       (saved.1.1, saved.1.2)).2
  = "https://x/logo.png".
Proof.
  intros reg saved.
  destruct (brandImage_round_trip reg App.signedOut "u1" "a@gym" "https://x/logo.png"
              (mkUser "a@gym" "admin")) as (_ & _ & _ & Hadmin & _);
    [reflexivity|].
  by apply Hadmin.
Defined.


Lemma updateShift_keeps_bookings_witness :
  let s := mkShift "2025-03-01" "10:00" 5 "m1" ["c1"; "u7"] 42 in
  let db := mkStore {[ "s1" := s ]} ∅ ∅ ∅ in
  shiftsColl (ShiftsManagement.handleUpdateShift (Some ("s1", s)) "2025-03-02" "11:00"
                (Js.Text (Some 8%Q)) "m2" db).1 !! "s1"
  = Some (mkShift "2025-03-02" "11:00" 8 "m2" ["c1"; "u7"] 42)
  /\ (ShiftsManagement.handleUpdateShift (Some ("s9", s)) "2025-03-02" "11:00"
        (Js.Text (Some 8%Q)) "m2" db).1 = db.
Proof.
  intros s db. split.
  - destruct (updateShift_keeps_bookings ("s1", s) "2025-03-02" "11:00"
                (Js.Text (Some 8%Q)) "m2" db) as (_ & _ & Hkeep & _).
    destruct (Hkeep s (mkShift "2025-03-02" "11:00" 8 "m2" ["c1"; "u7"] 42))
      as (_ & _ & Heq); [reflexivity | reflexivity |].
    reflexivity.
  - destruct (updateShift_keeps_bookings ("s9", s) "2025-03-02" "11:00"
                (Js.Text (Some 8%Q)) "m2" db) as (_ & _ & _ & Hgone & _).
    apply Hgone. reflexivity.
Defined.

Lemma resolver_sound_and_complete_witness :
  let users : gmap string User :=
    {[ "admin1" := mkUser "a1@gym" "admin"; "admin2" := mkUser "a2@gym" "admin" ]} in
  let ana := mkClient "Ana" "" "" (Some "u7") None in
  let tenant := fun _ : string => mkStore ∅ {[ "c1" := ana ]} ∅ ∅ in
  (ClientDashboard.fetchClientProfile users tenant "u7").1.2 = None
  /\ (ClientDashboard.fetchClientProfile users tenant "u9").1.1.1 = None.
Proof.
  intros users ana tenant. split.
  - destruct (resolver_sound_and_complete users tenant "u7") as (Hsound & _).
    destruct (Hsound ("c1", ana)) as (t & u & _ & _ & _ & _ & Hn); [reflexivity|].
    exact Hn.
  - destruct (resolver_sound_and_complete users tenant "u9") as (_ & _ & Hnone).
    apply Hnone. reflexivity.
Defined.

Lemma registration_after_sign_in_demotes_witness :
  usersColl
    (AuthScreen.handleAuth true (inr ("u1", "a@gym"))
       (mkRegistry {[ "u1" := mkUser "a@gym" "admin" ]} {[ "u1" := "" ]})).1 !! "u1"
  = Some (mkUser "a@gym" "client").
Proof.
  destruct (registration_after_sign_in_demotes "u1" "a@gym" App.signedOut)
    as (Hdemote & _).
  apply Hdemote. by eexists.
Defined.
